(** * AhorroLand front-end: the optimistic entity stores

    A shallow embedding of the NgRx signal stores of the application
    (categorias, clientes, gastos, ingresos, traspasos) and the properties of
    their optimistic-update protocol: rollback, reconciliation, total-count
    bookkeeping, cache invalidation, error-slot handling, load supersession
    and temporary identifiers. *)

From Stdlib Require Import Ascii.
From stdpp Require Import base option list gmap strings pretty sorting.

(** * JavaScript values shared by the stores *)

(** The object caught by a [catch] block or handed to an [error] callback.
    The stores read three of its properties, each possibly [undefined]:
    [message] ([Error], [HttpErrorResponse]), [userMessage] (added by the
    error interceptor) and [detail] ([ErrorResponse]). *)
Record JsError := mkJsError {
  message : option string;
  userMessage : option string;
  detail : option string
}.

(** [new Error(msg)] *)
Definition new_Error (msg : string) : JsError := mkJsError (Some msg) None None.

(** [x || fallback] on a string that may be [undefined]: the empty string is
    falsy as well. *)
Definition or_str (x : option string) (fallback : string) : string :=
  match x with
  | Some s => if decide (s = "") then fallback else s
  | None => fallback
  end.

(** The [Result<T>] envelope of the backend. [value] is typed [T]; for an
    identifier the empty string is the falsy value, and a payload that may be
    missing is an [option]. [error_message] is [response.error?.message]. *)
Record Result (T : Type) := mkResult {
  isSuccess : bool;
  value : T;
  error_message : option string
}.
Arguments mkResult {T} _ _ _.
Arguments isSuccess {T} _.
Arguments value {T} _.
Arguments error_message {T} _.

(** The page returned by the paginated endpoints. *)
Record Paged (T : Type) := mkPaged {
  items : list T;
  totalCount : Z
}.
Arguments mkPaged {T} _ _.
Arguments items {T} _.
Arguments totalCount {T} _.

(** The argument of the [load...Paginated] methods. *)
Record PageQuery := mkPageQuery {
  page : Z;
  pageSize : Z;
  searchTerm : option string;
  sortColumn : option string;
  sortOrder : option string
}.

(** [response.value] of [getRecent]: an array, or an object whose [items] may
    be missing. *)
Inductive RecentValue (T : Type) :=
| RecentArray (l : list T)
| RecentObject (its : option (list T)).
Arguments RecentArray {T} l.
Arguments RecentObject {T} its.

(** [Array.isArray(v) ? v : (v as any).items || []] *)
Definition recent_items {T} (v : RecentValue T) : list T :=
  match v with
  | RecentArray l => l
  | RecentObject its => default [] its
  end.

(** The template literal [`temp_${Date.now()}`]: [Date.now()] is an integer
    number of milliseconds, printed in decimal. *)
Definition temp_id (now : Z) : string := "temp_" +:+ pretty now.

(** * Asynchronous store methods

    A store method is a tree of synchronous steps on the store state ([St]),
    clock readings and Gateway calls. [Call R] is the type of the requests of
    one service whose response has type [R]. [Await] is the only suspension
    point: [await firstValueFrom(service.m(..))] or the subscription to the
    inner observable of a [switchMap]. *)

Inductive Settled (R : Type) :=
| Fulfilled (r : R)
| Rejected (e : JsError).
Arguments Fulfilled {R} r.
Arguments Rejected {R} e.

Inductive Async (St : Type) (Call : Type → Type) (A : Type) : Type :=
| Ret (a : A)
| Throw (e : JsError)
| PatchState (f : St → St) (k : Async St Call A)
| GetState (k : St → Async St Call A)
| DateNow (k : Z → Async St Call A)
| Await {R : Type} (c : Call R) (k : Settled R → Async St Call A).
Arguments Ret {St Call A} a.
Arguments Throw {St Call A} e.
Arguments PatchState {St Call A} f k.
Arguments GetState {St Call A} k.
Arguments DateNow {St Call A} k.
Arguments Await {St Call A R} c k.

Section AsyncOps.
Context {St : Type} {Call : Type → Type}.
Local Abbreviation M := (Async St Call).

Fixpoint bind {A B} (m : M A) (f : A → M B) : M B :=
  match m with
  | Ret a => f a
  | Throw e => Throw e
  | PatchState g k => PatchState g (bind k f)
  | GetState k => GetState (λ s, bind (k s) f)
  | DateNow k => DateNow (λ t, bind (k t) f)
  | Await c k => Await c (λ r, bind (k r) f)
  end.

(** [try { m } catch (err) { h err }]: an exception of the handler itself
    is not caught again. *)
Fixpoint try_catch {A} (m : M A) (h : JsError → M A) : M A :=
  match m with
  | Ret a => Ret a
  | Throw e => h e
  | PatchState g k => PatchState g (try_catch k h)
  | GetState k => GetState (λ s, try_catch (k s) h)
  | DateNow k => DateNow (λ t, try_catch (k t) h)
  | Await c k => Await c (λ r, try_catch (k r) h)
  end.

(** [patchState(store, ...)] *)
Definition patchState (f : St → St) : M unit := PatchState f (Ret tt).
(** reading the signals of the store *)
Definition getState : M St := GetState Ret.
(** [Date.now()] and [new Date()] *)
Definition dateNow : M Z := DateNow Ret.
(** [throw err] *)
Definition throw {A} (e : JsError) : M A := Throw e.
(** [await firstValueFrom(call)]: a rejection is thrown at the await. *)
Definition await {R} (c : Call R) : M R :=
  Await c (λ r, match r with Fulfilled v => Ret v | Rejected e => Throw e end).
(** [call.pipe(tapResponse({ next, error }))] as the inner observable of a
    [switchMap]: the error callback absorbs the failure. *)
Definition tapResponse {R} (c : Call R) (next : R → M unit)
    (error : JsError → M unit) : M unit :=
  Await c (λ r, match r with Fulfilled v => next v | Rejected e => error e end).
End AsyncOps.

Global Instance Async_ret {St Call} : MRet (Async St Call) := λ A, Ret.
Global Instance Async_bind {St Call} : MBind (Async St Call) :=
  λ A B f m, bind m f.

(** ** Running a method *)

Inductive Outcome (A : Type) :=
| Returned (a : A)
| Thrown (e : JsError).
Arguments Returned {A} a.
Arguments Thrown {A} e.

(** Where a method stands after a synchronous run: finished, or suspended on
    a Gateway call that has just been dispatched. *)
Inductive Suspended (St : Type) (Call : Type → Type) (A : Type) : Type :=
| Finished (o : Outcome A)
| Pending {R : Type} (c : Call R) (k : Settled R → Async St Call A).
Arguments Finished {St Call A} o.
Arguments Pending {St Call A R} c k.

(** What the Gateway answers to each request. *)
Definition Gateway (Call : Type → Type) : Type := ∀ R, Call R → Settled R.

(** A Gateway that rejects every request with [e]. *)
Definition rejecting {Call} (e : JsError) : Gateway Call := λ R _, Rejected e.

Section Run.
Context {St : Type} {Call : Type → Type}.

(** One synchronous run, up to the next Gateway call (JavaScript runs to
    completion between two awaits). Every [Date.now()] and [new Date()] of
    the run reads the same clock value [now]. *)
Fixpoint run {A} (now : Z) (m : Async St Call A) (s : St)
    : St * Suspended St Call A :=
  match m with
  | Ret a => (s, Finished (Returned a))
  | Throw e => (s, Finished (Thrown e))
  | PatchState f k => run now k (f s)
  | GetState k => run now (k s) s
  | DateNow k => run now (k now) s
  | Await c k => (s, Pending c k)
  end.

(** The response of the Gateway arrives at clock reading [now] and the
    suspended method runs on, from the store state of that moment. *)
Definition settle {A} (gw : Gateway Call) (now : Z)
    (p : Suspended St Call A) (s : St) : St * Suspended St Call A :=
  match p with
  | Finished o => (s, Finished o)
  | Pending c k => run now (k (gw _ c)) s
  end.

(** A whole call with nothing interleaved: dispatched at [t0], answered at
    [t1]. *)
Definition call {A} (gw : Gateway Call) (t0 t1 : Z) (m : Async St Call A)
    (s : St) : St * Suspended St Call A :=
  let '(s1, p) := run t0 m s in settle gw t1 p s1.
End Run.

(** ** The collation order of [String.prototype.localeCompare]

    It depends on the locale of the browser, so it is a parameter of the
    stores that sort by name. *)
Class LocaleCompare := localeCompare : string → string → Z.

(** [[...l].sort((a, b) => a.nombre.localeCompare(b.nombre))]: a merge sort
    on the comparator. The properties below use only that the result holds
    the same records as [l]. *)
Definition nombre_le `{LocaleCompare} {T} (nombre : T → string) (a b : T) : Prop :=
  (localeCompare (nombre a) (nombre b) ≤ 0)%Z.

Global Instance nombre_le_dec `{LocaleCompare} {T} (nombre : T → string) :
  RelDecision (nombre_le nombre).
Proof. intros a b. unfold nombre_le. apply _. Defined.

Definition sort_by_nombre `{LocaleCompare} {T} (nombre : T → string)
    (l : list T) : list T :=
  merge_sort (nombre_le nombre) l.

(** * The entity models

    The model declarations of these entities are outside the sources at
    hand: each record has the properties that the stores read or write. A
    field of a [partial] is [None] when the property is absent. *)

Module Categoria.
Record t := mk {
  id : string;
  nombre : string;
  descripcion : string;
  fechaCreacion : Z;
  usuarioId : string
}.

(** [Partial<Categoria>] *)
Record partial := mkPartial {
  p_id : option string;
  p_nombre : option string;
  p_descripcion : option string;
  p_fechaCreacion : option Z;
  p_usuarioId : option string
}.

(** [{ ...c, ...p }] *)
Definition merge (c : t) (p : partial) : t :=
  {| id := default (id c) (p_id p);
     nombre := default (nombre c) (p_nombre p);
     descripcion := default (descripcion c) (p_descripcion p);
     fechaCreacion := default (fechaCreacion c) (p_fechaCreacion p);
     usuarioId := default (usuarioId c) (p_usuarioId p) |}.
End Categoria.

Module Cliente.
Record t := mk {
  id : string;
  nombre : string;
  fechaCreacion : Z;
  usuarioId : string
}.

(** [Partial<Cliente>] *)
Record partial := mkPartial {
  p_id : option string;
  p_nombre : option string;
  p_fechaCreacion : option Z;
  p_usuarioId : option string
}.

(** [{ ...c, ...p }] *)
Definition merge (c : t) (p : partial) : t :=
  {| id := default (id c) (p_id p);
     nombre := default (nombre c) (p_nombre p);
     fechaCreacion := default (fechaCreacion c) (p_fechaCreacion p);
     usuarioId := default (usuarioId c) (p_usuarioId p) |}.
End Cliente.

(** * CategoriaStore *)

Module CategoriaStore.

Record State := mkState {
  categorias : list Categoria.t;
  totalRecords : Z;
  loading : bool;
  error : option string;
  lastUpdated : option Z;
  searchCache : gmap string (list Categoria.t)
}.

Definition initialState : State := mkState [] 0 false None None ∅.

Definition set_categorias (v : list Categoria.t) (s : State) : State :=
  mkState v (totalRecords s) (loading s) (error s) (lastUpdated s) (searchCache s).
Definition set_totalRecords (v : Z) (s : State) : State :=
  mkState (categorias s) v (loading s) (error s) (lastUpdated s) (searchCache s).
Definition set_loading (v : bool) (s : State) : State :=
  mkState (categorias s) (totalRecords s) v (error s) (lastUpdated s) (searchCache s).
Definition set_error (v : option string) (s : State) : State :=
  mkState (categorias s) (totalRecords s) (loading s) v (lastUpdated s) (searchCache s).
Definition set_lastUpdated (v : option Z) (s : State) : State :=
  mkState (categorias s) (totalRecords s) (loading s) (error s) v (searchCache s).
Definition set_searchCache (v : gmap string (list Categoria.t)) (s : State) : State :=
  mkState (categorias s) (totalRecords s) (loading s) (error s) (lastUpdated s) v.

(** The requests of [CategoriaService], indexed by their response. *)
Inductive Service : Type → Type :=
| svc_search (query : string) (limit : Z)
    : Service (Result (option (list Categoria.t)))
| svc_create (nombre : string) : Service (Result string)
| svc_getRecent (limit : Z)
    : Service (Result (option (RecentValue Categoria.t)))
| svc_getCategorias (q : PageQuery) : Service (Paged Categoria.t)
| svc_delete (id : string) : Service unit
| svc_update (id : string) (categoria : Categoria.partial)
    : Service (Result string).

Local Abbreviation M := (Async State Service).

Definition search (query : string) (limit : Z) : M (list Categoria.t) :=
  let cacheKey := query +:+ "_" +:+ pretty limit in
  s ← getState;
  match searchCache s !! cacheKey with
  | Some cached => mret cached
  | None =>
    patchState (λ s, set_loading true (set_error None s));;
    try_catch
      (response ← await (svc_search query limit);
       match isSuccess response, value response with
       | true, Some categorias =>
         now ← dateNow;
         patchState (λ s,
           set_loading false
             (set_searchCache (<[cacheKey := categorias]> (searchCache s))
                (set_lastUpdated (Some now) s)));;
         mret categorias
       | _, _ =>
         throw (new_Error (or_str (error_message response)
                             "Error al buscar categorías"))
       end)
      (λ err,
         patchState (λ s, set_loading false (set_error (message err) s));;
         throw err)
  end.

Definition create (nombre : string) : M string :=
  now ← dateNow;
  let tempId := temp_id now in
  fecha ← dateNow;
  let tempCategoria := Categoria.mk tempId nombre "" fecha "" in
  patchState (λ s,
    set_categorias (categorias s ++ [tempCategoria])
      (set_loading true (set_error None s)));;
  try_catch
    (response ← await (svc_create nombre);
     if isSuccess response && bool_decide (value response ≠ "") then
       fecha' ← dateNow;
       let realCategoria := Categoria.mk (value response) nombre "" fecha' "" in
       now' ← dateNow;
       patchState (λ s,
         set_categorias
           ((λ c, if decide (Categoria.id c = tempId)
                  then realCategoria else c) <$> categorias s)
           (set_loading false
              (set_lastUpdated (Some now') (set_searchCache ∅ s))));;
       mret (value response)
     else
       throw (new_Error (or_str (error_message response)
                           "Error al crear categoría")))
    (λ err,
       patchState (λ s,
         set_categorias
           (filter (λ c, Categoria.id c ≠ tempId) (categorias s))
           (set_loading false (set_error (message err) s)));;
       throw err).

Definition getRecent (limit : Z) : M (list Categoria.t) :=
  patchState (set_loading true);;
  try_catch
    (response ← await (svc_getRecent limit);
     match isSuccess response, value response with
     | true, Some v =>
       let categorias := recent_items v in
       patchState (set_loading false);;
       mret categorias
     | _, _ =>
       throw (new_Error (or_str (error_message response)
                           "Error al cargar categorías recientes"))
     end)
    (λ err, patchState (set_loading false);; throw err).

(** The reaction of the [rxMethod] pipeline to one emitted query: the
    [tap], then the inner observable of the [switchMap]. *)
Definition loadCategoriasPaginated (q : PageQuery) : M unit :=
  patchState (λ s, set_loading true (set_error None s));;
  tapResponse (svc_getCategorias q)
    (λ response,
       now ← dateNow;
       patchState (λ s,
         set_categorias (items response)
           (set_totalRecords (totalCount response)
              (set_loading false
                 (set_error None
                    (set_lastUpdated (Some now) (set_searchCache ∅ s)))))))
    (λ error,
       patchState (λ s,
         set_loading false
           (set_error (Some (or_str (userMessage error)
                               "Error al cargar categorías")) s))).

Definition deleteCategoria `{LocaleCompare} (id : string) : M unit :=
  (* tap *)
  patchState (λ state,
    set_categorias (filter (λ c, Categoria.id c ≠ id) (categorias state))
      (set_totalRecords (totalRecords state - 1)
         (set_searchCache ∅ state)));;
  (* switchMap *)
  s ← getState;
  let categoriaEliminada :=
    match find (λ c, bool_decide (Categoria.id c = id)) (categorias s) with
    | Some c => Some c
    | None =>
      let allCats := categorias s in
      find (λ c, bool_decide (Categoria.id c = id)) allCats
    end in
  let totalAnterior := totalRecords s in
  tapResponse (svc_delete id)
    (λ _, now ← dateNow; patchState (set_lastUpdated (Some now)))
    (λ err,
       match categoriaEliminada with
       | Some c =>
         patchState (λ state,
           set_categorias
             (sort_by_nombre Categoria.nombre (categorias state ++ [c]))
             (set_totalRecords totalAnterior
                (set_error (Some (or_str (detail err)
                                    "Error al eliminar categoría")) state)))
       | None =>
         patchState (set_error (Some (or_str (detail err)
                                        "Error al eliminar categoría")))
       end).

Definition update (id : string) (categoria : Categoria.partial) : M string :=
  s ← getState;
  let categoriaAnterior :=
    find (λ c, bool_decide (Categoria.id c = id)) (categorias s) in
  match categoriaAnterior with
  | Some _ =>
    patchState (λ s,
      set_categorias
        ((λ c, if decide (Categoria.id c = id)
               then Categoria.merge c categoria else c) <$> categorias s)
        (set_loading true (set_error None s)))
  | None => mret tt
  end;;
  try_catch
    (response ← await (svc_update id categoria);
     if isSuccess response then
       now ← dateNow;
       patchState (λ s,
         set_loading false
           (set_lastUpdated (Some now) (set_searchCache ∅ s)));;
       mret (value response)
     else
       throw (new_Error (or_str (error_message response)
                           "Error al actualizar categoría")))
    (λ err,
       match categoriaAnterior with
       | Some anterior =>
         patchState (λ s,
           set_categorias
             ((λ c, if decide (Categoria.id c = id)
                    then anterior else c) <$> categorias s) s)
       | None => mret tt
       end;;
       patchState (λ s, set_loading false (set_error (message err) s));;
       throw err).

Definition clearError : M unit := patchState (set_error None).

End CategoriaStore.

(** * ClienteStore *)

Module ClienteStore.

Record State := mkState {
  clientes : list Cliente.t;
  totalRecords : Z;
  loading : bool;
  error : option string;
  lastUpdated : option Z;
  searchCache : gmap string (list Cliente.t)
}.

Definition initialState : State := mkState [] 0 false None None ∅.

Definition set_clientes (v : list Cliente.t) (s : State) : State :=
  mkState v (totalRecords s) (loading s) (error s) (lastUpdated s) (searchCache s).
Definition set_totalRecords (v : Z) (s : State) : State :=
  mkState (clientes s) v (loading s) (error s) (lastUpdated s) (searchCache s).
Definition set_loading (v : bool) (s : State) : State :=
  mkState (clientes s) (totalRecords s) v (error s) (lastUpdated s) (searchCache s).
Definition set_error (v : option string) (s : State) : State :=
  mkState (clientes s) (totalRecords s) (loading s) v (lastUpdated s) (searchCache s).
Definition set_lastUpdated (v : option Z) (s : State) : State :=
  mkState (clientes s) (totalRecords s) (loading s) (error s) v (searchCache s).
Definition set_searchCache (v : gmap string (list Cliente.t)) (s : State) : State :=
  mkState (clientes s) (totalRecords s) (loading s) (error s) (lastUpdated s) v.

(** The requests of [ClienteService] used by the methods below. *)
Inductive Service : Type → Type :=
| svc_create (nombre : string) : Service (Result string)
| svc_update (id : string) (cliente : Cliente.partial) : Service (Result string)
| svc_delete (id : string) : Service unit.

Local Abbreviation M := (Async State Service).

Definition create (nombre : string) : M string :=
  now ← dateNow;
  let tempId := temp_id now in
  fecha ← dateNow;
  let tempCliente := Cliente.mk tempId nombre fecha "" in
  patchState (λ s,
    set_clientes (clientes s ++ [tempCliente])
      (set_loading true (set_error None s)));;
  try_catch
    (response ← await (svc_create nombre);
     if isSuccess response then
       fecha' ← dateNow;
       let realCliente := Cliente.mk (value response) nombre fecha' "" in
       now' ← dateNow;
       patchState (λ s,
         set_clientes
           ((λ c, if decide (Cliente.id c = tempId)
                  then realCliente else c) <$> clientes s)
           (set_loading false
              (set_lastUpdated (Some now') (set_searchCache ∅ s))));;
       mret (value response)
     else
       throw (new_Error (or_str (error_message response)
                           "Error al crear cliente")))
    (λ err,
       (* ROLLBACK: Eliminar cliente temporal y restaurar totalRecords *)
       patchState (λ s,
         set_clientes (filter (λ c, Cliente.id c ≠ tempId) (clientes s))
           (set_totalRecords (totalRecords s - 1)
              (set_loading false
                 (set_error (message err) (set_searchCache ∅ s)))));;
       throw err).

Definition update (id : string) (cliente : Cliente.partial) : M string :=
  s ← getState;
  let clienteAnterior :=
    find (λ c, bool_decide (Cliente.id c = id)) (clientes s) in
  match clienteAnterior with
  | Some _ =>
    patchState (λ s,
      set_clientes
        ((λ c, if decide (Cliente.id c = id)
               then Cliente.merge c cliente else c) <$> clientes s)
        (set_loading true (set_error None s)))
  | None => mret tt
  end;;
  try_catch
    (response ← await (svc_update id cliente);
     if isSuccess response then
       now ← dateNow;
       patchState (λ s,
         set_loading false
           (set_lastUpdated (Some now) (set_searchCache ∅ s)));;
       mret (value response)
     else
       throw (new_Error (or_str (error_message response)
                           "Error al actualizar cliente")))
    (λ err,
       (* ROLLBACK: Restaurar cliente anterior *)
       match clienteAnterior with
       | Some anterior =>
         patchState (λ s,
           set_clientes
             ((λ c, if decide (Cliente.id c = id)
                    then anterior else c) <$> clientes s)
             (set_loading false
                (set_error (message err) (set_searchCache ∅ s))))
       | None =>
         patchState (λ s, set_loading false (set_error (message err) s))
       end;;
       throw err).

(** The pipeline has no [tap]: the record and the count are captured in
    the [switchMap], before the optimistic removal. *)
Definition deleteCliente `{LocaleCompare} (id : string) : M unit :=
  s ← getState;
  let clienteEliminado :=
    find (λ c, bool_decide (Cliente.id c = id)) (clientes s) in
  let totalAnterior := totalRecords s in
  patchState (λ state,
    set_clientes (filter (λ c, Cliente.id c ≠ id) (clientes state))
      (set_totalRecords (totalRecords state - 1)
         (set_searchCache ∅ state)));;
  tapResponse (svc_delete id)
    (λ _, now ← dateNow; patchState (set_lastUpdated (Some now)))
    (λ err,
       match clienteEliminado with
       | Some c =>
         patchState (λ state,
           set_clientes
             (sort_by_nombre Cliente.nombre (clientes state ++ [c]))
             (set_totalRecords totalAnterior
                (set_error (Some (or_str (detail err)
                                    "Error al eliminar cliente")) state)))
       | None =>
         patchState (set_error (Some (or_str (detail err)
                                        "Error al eliminar cliente")))
       end).

End ClienteStore.

(** * GastosStore *)

(** What [createGasto] reads of a record of a sibling store. *)
Module Nombrado.
Record t := mk { id : string; nombre : string }.
End Nombrado.

Module Gasto.
Record t := mk {
  id : string;
  conceptoId : string;
  conceptoNombre : string;
  categoriaId : string;
  categoriaNombre : string;
  proveedorId : string;
  proveedorNombre : string;
  personaId : string;
  personaNombre : string;
  cuentaId : string;
  cuentaNombre : string;
  formaPagoId : string;
  formaPagoNombre : string;
  importe : Z;
  fecha : string;
  descripcion : option string;
  usuarioId : string
}.

(** [{ ...g, id: newId }] *)
Definition with_id (g : t) (newId : string) : t :=
  mk newId (conceptoId g) (conceptoNombre g) (categoriaId g)
     (categoriaNombre g) (proveedorId g) (proveedorNombre g) (personaId g)
     (personaNombre g) (cuentaId g) (cuentaNombre g) (formaPagoId g)
     (formaPagoNombre g) (importe g) (fecha g) (descripcion g) (usuarioId g).
End Gasto.

(** [GastoCreate]: the identifiers sent to the backend. *)
Module GastoCreate.
Record t := mk {
  conceptoId : string;
  categoriaId : string;
  proveedorId : string;
  personaId : string;
  cuentaId : string;
  formaPagoId : string;
  importe : Z;
  fecha : string;
  descripcion : option string
}.
End GastoCreate.

Module GastosStore.

Record Filters := mkFilters {
  fechaInicio : string;
  fechaFin : string;
  categoria : string;
  f_searchTerm : string;
  f_sortColumn : string;
  f_sortOrder : string
}.

Record State := mkState {
  gastos : list Gasto.t;
  selectedGasto : option Gasto.t;
  loading : bool;
  error : option string;
  totalGastos : Z;
  totalRecords : Z;
  lastUpdated : option Z;
  searchCache : gmap string (list Gasto.t);
  filters : Filters
}.

Definition initialState : State :=
  mkState [] None false None 0 0 None ∅ (mkFilters "" "" "" "" "" "").

Definition set_gastos (v : list Gasto.t) (s : State) : State :=
  mkState v (selectedGasto s) (loading s) (error s) (totalGastos s)
    (totalRecords s) (lastUpdated s) (searchCache s) (filters s).
Definition set_loading (v : bool) (s : State) : State :=
  mkState (gastos s) (selectedGasto s) v (error s) (totalGastos s)
    (totalRecords s) (lastUpdated s) (searchCache s) (filters s).
Definition set_error (v : option string) (s : State) : State :=
  mkState (gastos s) (selectedGasto s) (loading s) v (totalGastos s)
    (totalRecords s) (lastUpdated s) (searchCache s) (filters s).
Definition set_totalRecords (v : Z) (s : State) : State :=
  mkState (gastos s) (selectedGasto s) (loading s) (error s) (totalGastos s)
    v (lastUpdated s) (searchCache s) (filters s).
Definition set_lastUpdated (v : option Z) (s : State) : State :=
  mkState (gastos s) (selectedGasto s) (loading s) (error s) (totalGastos s)
    (totalRecords s) v (searchCache s) (filters s).
Definition set_searchCache (v : gmap string (list Gasto.t)) (s : State) : State :=
  mkState (gastos s) (selectedGasto s) (loading s) (error s) (totalGastos s)
    (totalRecords s) (lastUpdated s) v (filters s).

(** The snapshots of the sibling stores injected into the methods. *)
Record Siblings := mkSiblings {
  conceptos : list Nombrado.t;
  categorias : list Nombrado.t;
  proveedores : list Nombrado.t;
  personas : list Nombrado.t;
  cuentas : list Nombrado.t;
  formasPago : list Nombrado.t
}.

(** [l.find(c => c.id === id)?.nombre || ''] *)
Definition nombre_de (l : list Nombrado.t) (id : string) : string :=
  or_str (Nombrado.nombre <$> find (λ c, bool_decide (Nombrado.id c = id)) l) "".

(** The requests of [GastoService] used by the methods below: the raw
    payloads, without envelope. *)
Inductive Service : Type → Type :=
| svc_getGastos (q : PageQuery) (timestamp : option Z) : Service (Paged Gasto.t)
| svc_create (gasto : GastoCreate.t) : Service string
| svc_delete (id : string) : Service unit.

Local Abbreviation M := (Async State Service).

Definition loadGastosPaginated (q : PageQuery) (timestamp : option Z) : M unit :=
  patchState (λ s, set_loading true (set_error None s));;
  tapResponse (svc_getGastos q timestamp)
    (λ response,
       now ← dateNow;
       patchState (λ s,
         set_gastos (items response)
           (set_totalRecords (totalCount response)
              (set_loading false
                 (set_error None
                    (set_lastUpdated (Some now) (set_searchCache ∅ s)))))))
    (λ error,
       patchState (λ s,
         set_loading false
           (set_error (Some (or_str (userMessage error)
                               "Error al cargar gastos")) s))).

Definition createGasto (sib : Siblings) (gasto : GastoCreate.t) : M string :=
  now ← dateNow;
  let tempId := temp_id now in
  let tempGasto :=
    {| Gasto.id := tempId;
       Gasto.conceptoId := GastoCreate.conceptoId gasto;
       Gasto.conceptoNombre :=
         nombre_de (conceptos sib) (GastoCreate.conceptoId gasto);
       Gasto.categoriaId := GastoCreate.categoriaId gasto;
       Gasto.categoriaNombre :=
         nombre_de (categorias sib) (GastoCreate.categoriaId gasto);
       Gasto.proveedorId := GastoCreate.proveedorId gasto;
       Gasto.proveedorNombre :=
         nombre_de (proveedores sib) (GastoCreate.proveedorId gasto);
       Gasto.personaId := GastoCreate.personaId gasto;
       Gasto.personaNombre :=
         nombre_de (personas sib) (GastoCreate.personaId gasto);
       Gasto.cuentaId := GastoCreate.cuentaId gasto;
       Gasto.cuentaNombre :=
         nombre_de (cuentas sib) (GastoCreate.cuentaId gasto);
       Gasto.formaPagoId := GastoCreate.formaPagoId gasto;
       Gasto.formaPagoNombre :=
         nombre_de (formasPago sib) (GastoCreate.formaPagoId gasto);
       Gasto.importe := GastoCreate.importe gasto;
       Gasto.fecha := GastoCreate.fecha gasto;
       Gasto.descripcion := GastoCreate.descripcion gasto;
       Gasto.usuarioId := "" |} in
  patchState (λ s,
    set_gastos (tempGasto :: gastos s)
      (set_totalRecords (totalRecords s + 1)
         (set_loading true (set_error None s))));;
  try_catch
    (newGastoId ← await (svc_create gasto);
     now' ← dateNow;
     patchState (λ s,
       set_gastos
         ((λ g, if decide (Gasto.id g = tempId)
                then Gasto.with_id tempGasto newGastoId else g) <$> gastos s)
         (set_loading false
            (set_lastUpdated (Some now') (set_searchCache ∅ s))));;
     mret newGastoId)
    (λ error,
       patchState (λ s,
         set_gastos (filter (λ g, Gasto.id g ≠ tempId) (gastos s))
           (set_totalRecords (totalRecords s - 1)
              (set_loading false
                 (set_error (Some (or_str (userMessage error)
                                     "Error al crear gasto")) s))));;
       throw error).

Definition deleteGasto (id : string) : M unit :=
  patchState (λ state,
    set_gastos (filter (λ g, Gasto.id g ≠ id) (gastos state))
      (set_totalRecords (totalRecords state - 1)
         (set_searchCache ∅ state)));;
  tapResponse (svc_delete id)
    (λ _, now ← dateNow; patchState (set_lastUpdated (Some now)))
    (λ err,
       patchState (set_error (Some (or_str (detail err)
                                      "Error al eliminar gasto")))).

End GastosStore.

(** * IngresosStore *)

Module Ingreso.
Record t := mk {
  id : string;
  importe : Z;
  fecha : string;
  categoriaNombre : option string;
  descripcion : option string
}.
End Ingreso.

Module IngresosStore.

Record Filters := mkFilters {
  fechaInicio : string;
  fechaFin : string;
  tipo : string;
  f_searchTerm : string;
  f_sortColumn : string;
  f_sortOrder : string
}.

Record State := mkState {
  ingresos : list Ingreso.t;
  selectedIngreso : option Ingreso.t;
  loading : bool;
  error : option string;
  totalIngresos : Z;
  totalRecords : Z;
  filters : Filters
}.

Definition initialState : State :=
  mkState [] None false None 0 0 (mkFilters "" "" "" "" "" "").

Definition set_ingresos (v : list Ingreso.t) (s : State) : State :=
  mkState v (selectedIngreso s) (loading s) (error s) (totalIngresos s)
    (totalRecords s) (filters s).
Definition set_loading (v : bool) (s : State) : State :=
  mkState (ingresos s) (selectedIngreso s) v (error s) (totalIngresos s)
    (totalRecords s) (filters s).
Definition set_error (v : option string) (s : State) : State :=
  mkState (ingresos s) (selectedIngreso s) (loading s) v (totalIngresos s)
    (totalRecords s) (filters s).

(** The requests of [IngresoService] used by the methods below. The
    payloads [IngresoCreate] and [Partial<Ingreso>] are only handed to the
    service, so their type is a parameter. *)
Inductive Service (IngresoCreate IngresoPartial : Type) : Type → Type :=
| svc_create (ingreso : IngresoCreate)
    : Service IngresoCreate IngresoPartial Ingreso.t
| svc_update (id : string) (ingreso : IngresoPartial)
    : Service IngresoCreate IngresoPartial Ingreso.t
| svc_delete (id : string) : Service IngresoCreate IngresoPartial unit.
Arguments svc_create {IngresoCreate IngresoPartial} ingreso.
Arguments svc_update {IngresoCreate IngresoPartial} id ingreso.
Arguments svc_delete {IngresoCreate IngresoPartial} id.

Section Methods.
Context {IngresoCreate IngresoPartial : Type}.
Local Abbreviation M := (Async State (Service IngresoCreate IngresoPartial)).

Definition createIngreso (ingreso : IngresoCreate) : M unit :=
  patchState (λ s, set_loading true (set_error None s));;
  tapResponse (svc_create ingreso)
    (λ newIngreso,
       patchState (λ s,
         set_ingresos (ingresos s ++ [newIngreso]) (set_loading false s)))
    (λ error,
       patchState (λ s,
         set_loading false
           (set_error (Some (or_str (userMessage error)
                               "Error al crear ingreso")) s))).

Definition updateIngreso (id : string) (ingreso : IngresoPartial) : M unit :=
  patchState (λ s, set_loading true (set_error None s));;
  tapResponse (svc_update id ingreso)
    (λ updatedIngreso,
       patchState (λ s,
         set_ingresos
           ((λ i, if decide (Ingreso.id i = id)
                  then updatedIngreso else i) <$> ingresos s)
           (set_loading false s)))
    (λ error,
       patchState (λ s,
         set_loading false
           (set_error (Some (or_str (userMessage error)
                               "Error al actualizar ingreso")) s))).

Definition deleteIngreso (id : string) : M unit :=
  patchState (λ s, set_loading true (set_error None s));;
  tapResponse (svc_delete id)
    (λ _,
       patchState (λ s,
         set_ingresos (filter (λ i, Ingreso.id i ≠ id) (ingresos s))
           (set_loading false s)))
    (λ error,
       patchState (λ s,
         set_loading false
           (set_error (Some (or_str (userMessage error)
                               "Error al eliminar ingreso")) s))).
End Methods.

End IngresosStore.

(** * TraspasosStore *)

Module Traspaso.
Record t := mk {
  id : string;
  cuentaOrigenId : string;
  cuentaOrigenNombre : string;
  cuentaDestinoId : string;
  cuentaDestinoNombre : string;
  fecha : string;
  importe : Z;
  descripcion : option string;
  usuarioId : string
}.

(** [{ ...t, id: newId }] *)
Definition with_id (x : t) (newId : string) : t :=
  mk newId (cuentaOrigenId x) (cuentaOrigenNombre x) (cuentaDestinoId x)
     (cuentaDestinoNombre x) (fecha x) (importe x) (descripcion x)
     (usuarioId x).
End Traspaso.

Module TraspasoCreate.
Record t := mk {
  cuentaOrigenId : string;
  cuentaDestinoId : string;
  fecha : string;
  importe : Z;
  descripcion : option string
}.
End TraspasoCreate.

Module TraspasosStore.

Record State := mkState {
  traspasos : list Traspaso.t;
  selectedTraspaso : option Traspaso.t;
  loading : bool;
  error : option string;
  totalRecords : Z
}.

Definition initialState : State := mkState [] None false None 0.

Definition set_traspasos (v : list Traspaso.t) (s : State) : State :=
  mkState v (selectedTraspaso s) (loading s) (error s) (totalRecords s).
Definition set_loading (v : bool) (s : State) : State :=
  mkState (traspasos s) (selectedTraspaso s) v (error s) (totalRecords s).
Definition set_error (v : option string) (s : State) : State :=
  mkState (traspasos s) (selectedTraspaso s) (loading s) v (totalRecords s).
Definition set_totalRecords (v : Z) (s : State) : State :=
  mkState (traspasos s) (selectedTraspaso s) (loading s) (error s) v.

Inductive Service : Type → Type :=
| svc_create (traspaso : TraspasoCreate.t) : Service string.

Local Abbreviation M := (Async State Service).

Definition createTraspaso (traspaso : TraspasoCreate.t) : M string :=
  now ← dateNow;
  let tempId := temp_id now in
  let tempTraspaso :=
    {| Traspaso.id := tempId;
       Traspaso.cuentaOrigenId := TraspasoCreate.cuentaOrigenId traspaso;
       Traspaso.cuentaOrigenNombre := "";
       Traspaso.cuentaDestinoId := TraspasoCreate.cuentaDestinoId traspaso;
       Traspaso.cuentaDestinoNombre := "";
       Traspaso.fecha := TraspasoCreate.fecha traspaso;
       Traspaso.importe := TraspasoCreate.importe traspaso;
       Traspaso.descripcion := TraspasoCreate.descripcion traspaso;
       Traspaso.usuarioId := "" |} in
  patchState (λ s,
    set_traspasos (tempTraspaso :: traspasos s)
      (set_totalRecords (totalRecords s + 1)
         (set_loading true (set_error None s))));;
  try_catch
    (newTraspasoId ← await (svc_create traspaso);
     patchState (λ s,
       set_traspasos
         ((λ t, if decide (Traspaso.id t = tempId)
                then Traspaso.with_id tempTraspaso newTraspasoId else t)
            <$> traspasos s)
         (set_loading false s));;
     mret newTraspasoId)
    (λ error,
       patchState (λ s,
         set_traspasos (filter (λ t, Traspaso.id t ≠ tempId) (traspasos s))
           (set_totalRecords (totalRecords s - 1)
              (set_loading false
                 (set_error (Some (or_str (userMessage error)
                                     "Error al crear traspaso")) s))));;
       throw error).

End TraspasosStore.

(** * The [rxMethod] pipelines

    An [rxMethod(pipe(tap(..), switchMap(..)))] owns one stream. Each emitted
    input runs the reaction up to the subscription to the inner observable,
    and [switchMap] unsubscribes from the previous inner observable first:
    at most one request is subscribed, and the response of any other request
    is dropped. *)

Module Rx.
Section Pipeline.
Context {St : Type} {Call : Type → Type} {In : Type}.
Variable method : In → Async St Call unit.

Record World := mkWorld {
  store : St;
  (** the subscribed inner observable, with the number of its request *)
  inner : option (nat * Suspended St Call unit);
  (** the number of requests issued so far *)
  issued : nat
}.

Definition start (s : St) : World := mkWorld s None 0.

Inductive Event :=
| Emit (x : In)
| Respond (request : nat) (gw : Gateway Call).

Definition step (now : Z) (ev : Event) (w : World) : World :=
  match ev with
  | Emit x =>
    let '(s, p) := run now (method x) (store w) in
    match p with
    | Finished _ => mkWorld s None (issued w)
    | Pending _ _ => mkWorld s (Some (issued w, p)) (S (issued w))
    end
  | Respond request gw =>
    match inner w with
    | Some (n, p) =>
      if decide (n = request)
      then mkWorld (fst (settle gw now p (store w))) None (issued w)
      else w
    | None => w
    end
  end.

(** The events with their clock readings, oldest first. *)
Fixpoint steps (evs : list (Z * Event)) (w : World) : World :=
  match evs with
  | [] => w
  | (now, ev) :: evs => steps evs (step now ev w)
  end.
(** A response to a request other than [n]. *)
Definition responds_not_to (n : nat) (tev : Z * Event) : Prop :=
  match tev.2 with
  | Respond m _ => m ≠ n
  | Emit _ => False
  end.

Definition is_response (tev : Z * Event) : Prop :=
  match tev.2 with
  | Respond _ _ => True
  | Emit _ => False
  end.
End Pipeline.
End Rx.

(** * The remaining methods of the stores *)

(** ** ClienteStore: [search], [loadClienteesPaginated], [getRecent] *)

Module ClienteQueries.
Import ClienteStore.

(** The read requests of [ClienteService]. *)
Inductive Service : Type → Type :=
| svc_search (query : string) (limit : Z)
    : Service (Result (option (RecentValue Cliente.t)))
| svc_getClientes (q : PageQuery) : Service (Paged Cliente.t)
| svc_getRecent (limit : Z)
    : Service (Result (option (RecentValue Cliente.t))).

Local Abbreviation M := (Async State Service).

Definition search (query : string) (limit : Z) : M (list Cliente.t) :=
  let cacheKey := query +:+ "_" +:+ pretty limit in
  s ← getState;
  match searchCache s !! cacheKey with
  | Some cached => mret cached
  | None =>
    patchState (λ s, set_loading true (set_error None s));;
    try_catch
      (response ← await (svc_search query limit);
       match isSuccess response, value response with
       | true, Some v =>
         let clientes := recent_items v in
         now ← dateNow;
         patchState (λ s,
           set_clientes clientes
             (set_loading false
                (set_searchCache (<[cacheKey := clientes]> (searchCache s))
                   (set_lastUpdated (Some now) s))));;
         mret clientes
       | _, _ =>
         let errorMsg := or_str (error_message response)
                           "Error al buscar clientes" in
         patchState (λ s, set_loading false (set_error (Some errorMsg) s));;
         throw (new_Error errorMsg)
       end)
      (λ err,
         let errorMsg := or_str (message err) "Error al buscar clientes" in
         patchState (λ s, set_loading false (set_error (Some errorMsg) s));;
         throw err)
  end.

Definition loadClienteesPaginated (q : PageQuery) : M unit :=
  patchState (λ s, set_loading true (set_error None s));;
  tapResponse (svc_getClientes q)
    (λ response,
       now ← dateNow;
       patchState (λ s,
         set_clientes (items response)
           (set_totalRecords (totalCount response)
              (set_loading false
                 (set_error None
                    (set_lastUpdated (Some now) (set_searchCache ∅ s)))))))
    (λ error,
       patchState (λ s,
         set_loading false
           (set_error (Some (or_str (userMessage error)
                               "Error al cargar clientes")) s))).

Definition getRecent (limit : Z) : M (list Cliente.t) :=
  patchState (λ s, set_loading true (set_error None s));;
  try_catch
    (response ← await (svc_getRecent limit);
     match isSuccess response, value response with
     | true, Some v =>
       let clientes := recent_items v in
       patchState (set_loading false);;
       mret clientes
     | _, _ =>
       let errorMsg := or_str (error_message response)
                         "Error al cargar clientes recientes" in
       patchState (λ s, set_loading false (set_error (Some errorMsg) s));;
       throw (new_Error errorMsg)
     end)
    (λ err,
       let errorMsg := or_str (message err)
                         "Error al cargar clientes recientes" in
       patchState (λ s, set_loading false (set_error (Some errorMsg) s));;
       throw err).

Definition clearError : M unit := patchState (set_error None).

End ClienteQueries.

(** ** TraspasosStore: [loadTraspasosPaginated], [updateTraspaso],
    [deleteTraspaso] *)

Module TraspasoPartial.
(** [Partial<Traspaso>] *)
Record t := mk {
  id : option string;
  cuentaOrigenId : option string;
  cuentaOrigenNombre : option string;
  cuentaDestinoId : option string;
  cuentaDestinoNombre : option string;
  fecha : option string;
  importe : option Z;
  descripcion : option (option string);
  usuarioId : option string
}.

(** [{ ...x, ...p }] *)
Definition merge (x : Traspaso.t) (p : t) : Traspaso.t :=
  {| Traspaso.id := default (Traspaso.id x) (id p);
     Traspaso.cuentaOrigenId :=
       default (Traspaso.cuentaOrigenId x) (cuentaOrigenId p);
     Traspaso.cuentaOrigenNombre :=
       default (Traspaso.cuentaOrigenNombre x) (cuentaOrigenNombre p);
     Traspaso.cuentaDestinoId :=
       default (Traspaso.cuentaDestinoId x) (cuentaDestinoId p);
     Traspaso.cuentaDestinoNombre :=
       default (Traspaso.cuentaDestinoNombre x) (cuentaDestinoNombre p);
     Traspaso.fecha := default (Traspaso.fecha x) (fecha p);
     Traspaso.importe := default (Traspaso.importe x) (importe p);
     Traspaso.descripcion :=
       default (Traspaso.descripcion x) (descripcion p);
     Traspaso.usuarioId := default (Traspaso.usuarioId x) (usuarioId p) |}.
End TraspasoPartial.

Module TraspasosOps.
Import TraspasosStore.

(** The other requests of [TraspasoService]; the response of [update] is
    not read. *)
Inductive Service : Type → Type :=
| svc_getTraspasos (q : PageQuery) : Service (Paged Traspaso.t)
| svc_update (id : string) (traspaso : TraspasoPartial.t) : Service unit
| svc_delete (id : string) : Service unit.

Local Abbreviation M := (Async State Service).

Definition loadTraspasosPaginated (q : PageQuery) : M unit :=
  patchState (λ s, set_loading true (set_error None s));;
  tapResponse (svc_getTraspasos q)
    (λ response,
       patchState (λ s,
         set_traspasos (items response)
           (set_totalRecords (totalCount response)
              (set_loading false (set_error None s)))))
    (λ error,
       patchState (λ s,
         set_loading false
           (set_error (Some (or_str (userMessage error)
                               "Error al cargar traspasos")) s))).

Definition updateTraspaso (id : string) (traspaso : TraspasoPartial.t)
    : M unit :=
  s ← getState;
  let traspasoAnterior :=
    find (λ t, bool_decide (Traspaso.id t = id)) (traspasos s) in
  let traspasos' :=
    (λ t, if decide (Traspaso.id t = id)
          then TraspasoPartial.merge t traspaso else t) <$> traspasos s in
  patchState (λ s,
    set_traspasos traspasos' (set_loading true (set_error None s)));;
  try_catch
    (await (svc_update id traspaso);;
     patchState (set_loading false))
    (λ error,
       match traspasoAnterior with
       | Some anterior =>
         patchState (λ s,
           set_traspasos
             ((λ t, if decide (Traspaso.id t = id) then anterior else t)
                <$> traspasos s) s)
       | None => mret tt
       end;;
       patchState (λ s,
         set_loading false
           (set_error (Some (or_str (userMessage error)
                               "Error al actualizar traspaso")) s));;
       throw error).

Definition deleteTraspaso (id : string) : M unit :=
  s ← getState;
  let traspasoEliminado :=
    find (λ t, bool_decide (Traspaso.id t = id)) (traspasos s) in
  let totalAnterior := totalRecords s in
  patchState (λ s,
    set_traspasos (filter (λ t, Traspaso.id t ≠ id) (traspasos s))
      (set_totalRecords (totalRecords s - 1) s));;
  tapResponse (svc_delete id)
    (λ _, patchState (set_error None))
    (λ error,
       match traspasoEliminado with
       | Some eliminado =>
         patchState (λ s,
           set_traspasos (traspasos s ++ [eliminado])
             (set_totalRecords totalAnterior
                (set_error (Some (or_str (message error)
                                    "Error al eliminar traspaso")) s)))
       | None =>
         patchState (set_error (Some (or_str (message error)
                                        "Error al eliminar traspaso")))
       end).

End TraspasosOps.

(** ** GastosStore: [loadGastos], [loadGastosPorPeriodo], [updateGasto],
    [selectGasto], [setFilters], [clearError] *)

Module GastoPartial.
(** [Partial<Gasto>] *)
Record t := mk {
  id : option string;
  conceptoId : option string;
  conceptoNombre : option string;
  categoriaId : option string;
  categoriaNombre : option string;
  proveedorId : option string;
  proveedorNombre : option string;
  personaId : option string;
  personaNombre : option string;
  cuentaId : option string;
  cuentaNombre : option string;
  formaPagoId : option string;
  formaPagoNombre : option string;
  importe : option Z;
  fecha : option string;
  descripcion : option (option string);
  usuarioId : option string
}.

(** [{ ...g, ...p }] *)
Definition merge (g : Gasto.t) (p : t) : Gasto.t :=
  {| Gasto.id := default (Gasto.id g) (id p);
     Gasto.conceptoId := default (Gasto.conceptoId g) (conceptoId p);
     Gasto.conceptoNombre := default (Gasto.conceptoNombre g) (conceptoNombre p);
     Gasto.categoriaId := default (Gasto.categoriaId g) (categoriaId p);
     Gasto.categoriaNombre :=
       default (Gasto.categoriaNombre g) (categoriaNombre p);
     Gasto.proveedorId := default (Gasto.proveedorId g) (proveedorId p);
     Gasto.proveedorNombre :=
       default (Gasto.proveedorNombre g) (proveedorNombre p);
     Gasto.personaId := default (Gasto.personaId g) (personaId p);
     Gasto.personaNombre := default (Gasto.personaNombre g) (personaNombre p);
     Gasto.cuentaId := default (Gasto.cuentaId g) (cuentaId p);
     Gasto.cuentaNombre := default (Gasto.cuentaNombre g) (cuentaNombre p);
     Gasto.formaPagoId := default (Gasto.formaPagoId g) (formaPagoId p);
     Gasto.formaPagoNombre :=
       default (Gasto.formaPagoNombre g) (formaPagoNombre p);
     Gasto.importe := default (Gasto.importe g) (importe p);
     Gasto.fecha := default (Gasto.fecha g) (fecha p);
     Gasto.descripcion := default (Gasto.descripcion g) (descripcion p);
     Gasto.usuarioId := default (Gasto.usuarioId g) (usuarioId p) |}.
End GastoPartial.

Module GastosOps.
Import GastosStore.

Definition set_selectedGasto (v : option Gasto.t) (s : State) : State :=
  mkState (gastos s) v (loading s) (error s) (totalGastos s)
    (totalRecords s) (lastUpdated s) (searchCache s) (filters s).
Definition set_filters (v : Filters) (s : State) : State :=
  mkState (gastos s) (selectedGasto s) (loading s) (error s) (totalGastos s)
    (totalRecords s) (lastUpdated s) (searchCache s) v.

(** [Partial<GastosState['filters']>] *)
Record PartialFilters := mkPartialFilters {
  p_fechaInicio : option string;
  p_fechaFin : option string;
  p_categoria : option string;
  p_searchTerm : option string;
  p_sortColumn : option string;
  p_sortOrder : option string
}.

(** [{ ...f, ...p }] *)
Definition merge_filters (f : Filters) (p : PartialFilters) : Filters :=
  {| fechaInicio := default (fechaInicio f) (p_fechaInicio p);
     fechaFin := default (fechaFin f) (p_fechaFin p);
     categoria := default (categoria f) (p_categoria p);
     f_searchTerm := default (f_searchTerm f) (p_searchTerm p);
     f_sortColumn := default (f_sortColumn f) (p_sortColumn p);
     f_sortOrder := default (f_sortOrder f) (p_sortOrder p) |}.

(** The other requests of [GastoService]; the response of [update] is not
    read. *)
Inductive Service : Type → Type :=
| svc_getAllGastos : Service (list Gasto.t)
| svc_getGastosPorPeriodo (fechaInicio fechaFin : string)
    : Service (list Gasto.t)
| svc_update (id : string) (gasto : GastoPartial.t) : Service unit.

Local Abbreviation M := (Async State Service).

Definition loadGastos : M unit :=
  patchState (λ s, set_loading true (set_error None s));;
  tapResponse svc_getAllGastos
    (λ gastos,
       patchState (λ s,
         set_gastos gastos (set_loading false (set_error None s))))
    (λ error,
       patchState (λ s,
         set_loading false
           (set_error (Some (or_str (userMessage error)
                               "Error al cargar gastos")) s))).

Definition loadGastosPorPeriodo (fechaInicio fechaFin : string) : M unit :=
  patchState (λ s, set_loading true (set_error None s));;
  tapResponse (svc_getGastosPorPeriodo fechaInicio fechaFin)
    (λ gastos,
       patchState (λ s,
         set_gastos gastos
           (set_loading false
              (set_filters
                 (merge_filters (filters s)
                    (mkPartialFilters (Some fechaInicio) (Some fechaFin)
                       None None None None)) s))))
    (λ error,
       patchState (λ s,
         set_loading false
           (set_error (Some (or_str (userMessage error)
                               "Error al cargar gastos")) s))).

Definition updateGasto (id : string) (gasto : GastoPartial.t) : M unit :=
  s ← getState;
  let gastoAnterior :=
    find (λ g, bool_decide (Gasto.id g = id)) (gastos s) in
  let gastos' :=
    (λ g, if decide (Gasto.id g = id)
          then GastoPartial.merge g gasto else g) <$> gastos s in
  patchState (λ s, set_gastos gastos' (set_loading true (set_error None s)));;
  try_catch
    (await (svc_update id gasto);;
     now ← dateNow;
     patchState (λ s,
       set_loading false
         (set_lastUpdated (Some now) (set_searchCache ∅ s))))
    (λ error,
       match gastoAnterior with
       | Some anterior =>
         patchState (λ s,
           set_gastos
             ((λ g, if decide (Gasto.id g = id) then anterior else g)
                <$> gastos s) s)
       | None => mret tt
       end;;
       patchState (λ s,
         set_loading false
           (set_error (Some (or_str (userMessage error)
                               "Error al actualizar gasto")) s));;
       throw error).

Definition selectGasto (gasto : option Gasto.t) : M unit :=
  patchState (set_selectedGasto gasto).

Definition setFilters (p : PartialFilters) : M unit :=
  patchState (λ s, set_filters (merge_filters (filters s) p) s).

Definition clearError : M unit := patchState (set_error None).

End GastosOps.

(** ** CategoriaStore: the derived views [hasData] and [isSyncing] *)

Module CategoriaViews.
Import CategoriaStore.

Definition hasData (s : State) : bool := bool_decide (0 < length (categorias s)).
Definition isSyncing (s : State) : bool := loading s && hasData s.

End CategoriaViews.

(** * Vocabulary of the properties *)

(** The template literal [`${query}_${limit}`] under which the [search]
    methods read and write the cache. *)
Definition cacheKey (query : string) (limit : Z) : string :=
  query +:+ "_" +:+ pretty limit.

(** The synchronous run ended by dispatching the request [c]. *)
Definition dispatched {St Call A R} (p : Suspended St Call A) (c : Call R) : Prop :=
  ∃ k, p = Pending c k.

(** The search cache of CategoriaStore holds nothing, and a search with any
    key goes to the Gateway. *)
Definition cache_invalidated (s : CategoriaStore.State) : Prop :=
  CategoriaStore.searchCache s = ∅
  ∧ ∀ t query limit,
      dispatched (snd (run t (CategoriaStore.search query limit) s))
        (CategoriaStore.svc_search query limit).

(** The Gateway call of a method answering with an envelope has failed: the
    request is rejected, or the envelope says so. *)
Definition failed {T} (r : Settled (Result T)) : Prop :=
  match r with
  | Rejected _ => True
  | Fulfilled response => isSuccess response = false
  end.

(** No other record of the collection carries the identifier of [r]. *)
Definition only_with_its_id {T} (key : T → string) (l : list T) (r : T) : Prop :=
  ∀ c, c ∈ l → key c = key r → c = r.

(** A partial update that does not move the record to another identifier. *)
Definition keeps_id (i : string) (p_id : option string) : Prop :=
  p_id = None ∨ p_id = Some i.


(** The input of [loadGastosPaginated]: the page query and its [timestamp]. *)
Definition loadGastos (x : PageQuery * option Z)
    : Async GastosStore.State GastosStore.Service unit :=
  GastosStore.loadGastosPaginated x.1 x.2.

(** ** Gateways of the examples *)

(** A Gateway that confirms every create of a category with identifier [x]. *)
Definition categoria_created (x : string) : Gateway CategoriaStore.Service :=
  λ R c,
    match c in CategoriaStore.Service R return Settled R with
    | CategoriaStore.svc_create _ => Fulfilled (mkResult true x None)
    | _ => Rejected (new_Error "unexpected request")
    end.

(** A Gateway of categories that answers every paginated load with [pg]. *)
Definition categoria_page (pg : Paged Categoria.t)
    : Gateway CategoriaStore.Service :=
  λ R c,
    match c in CategoriaStore.Service R return Settled R with
    | CategoriaStore.svc_getCategorias _ => Fulfilled pg
    | _ => Rejected (new_Error "unexpected request")
    end.

(** A Gateway of incomes that answers a create with [new] and accepts every
    delete. *)
Definition ingreso_gateway (new : Ingreso.t)
    : Gateway (IngresosStore.Service string unit) :=
  λ R c,
    match c in IngresosStore.Service _ _ R return Settled R with
    | IngresosStore.svc_create _ => Fulfilled new
    | IngresosStore.svc_update _ _ => Rejected (new_Error "unexpected request")
    | IngresosStore.svc_delete _ => Fulfilled tt
    end.

(** * CategoriaStore in the event loop

    The methods of one CategoriaStore as the event loop interleaves them.
    A call of an async method runs up to its [await] and leaves a pending
    promise; the two [rxMethod] pipelines have one [switchMap] each, so a
    paginated load (a delete) has at most one subscribed request, replaced
    by the next emission. An answer of the Gateway resumes the promise or
    the subscribed request it is for; the answer to a request that
    [switchMap] has dropped is no event of the loop. *)

(** [m] with its result dropped. *)
Definition void {St Call A} (m : Async St Call A) : Async St Call unit :=
  m ;; mret tt.

Module CategoriaLoop.
Import CategoriaStore.

Inductive Op :=
| OpSearch (query : string) (limit : Z)
| OpCreate (nombre : string)
| OpGetRecent (limit : Z)
| OpUpdate (id : string) (categoria : Categoria.partial)
| OpClearError
| OpLoad (q : PageQuery)
| OpDelete (id : string).

Definition reaction `{LocaleCompare} (op : Op) : Async State Service unit :=
  match op with
  | OpSearch query limit => void (search query limit)
  | OpCreate nombre => void (create nombre)
  | OpGetRecent limit => void (getRecent limit)
  | OpUpdate id categoria => void (update id categoria)
  | OpClearError => clearError
  | OpLoad q => loadCategoriasPaginated q
  | OpDelete id => deleteCategoria id
  end.

(** The methods that return a promise. *)
Definition is_async (op : Op) : bool :=
  match op with
  | OpLoad _ | OpDelete _ => false
  | _ => true
  end.

Abbreviation Task := (Suspended State Service unit).

Record World := mkWorld {
  store : State;
  (** the promises of the async calls, in the order of the calls; [None]
      once settled *)
  promises : list (option Task);
  (** the subscribed request of [loadCategoriasPaginated] *)
  loadInner : option Task;
  (** the subscribed request of [deleteCategoria] *)
  deleteInner : option Task
}.

Definition start (s : State) : World := mkWorld s [] None None.

Definition pending_of (p : Task) : option Task :=
  match p with
  | Pending _ _ => Some p
  | Finished _ => None
  end.

Inductive Target :=
| Promise (n : nat)
| LoadRequest
| DeleteRequest.

Inductive Event :=
| Invoke (op : Op)
| Answer (target : Target) (gw : Gateway Service).

Definition step `{LocaleCompare} (now : Z) (ev : Event) (w : World) : World :=
  match ev with
  | Invoke op =>
    let '(s, p) := run now (reaction op) (store w) in
    match op with
    | OpLoad _ => mkWorld s (promises w) (pending_of p) (deleteInner w)
    | OpDelete _ => mkWorld s (promises w) (loadInner w) (pending_of p)
    | _ => mkWorld s (promises w ++ [pending_of p]) (loadInner w)
             (deleteInner w)
    end
  | Answer (Promise n) gw =>
    match promises w !! n with
    | Some (Some p) =>
      let '(s, p') := settle gw now p (store w) in
      mkWorld s (<[n := pending_of p']> (promises w)) (loadInner w)
        (deleteInner w)
    | _ => w
    end
  | Answer LoadRequest gw =>
    match loadInner w with
    | Some p =>
      let '(s, p') := settle gw now p (store w) in
      mkWorld s (promises w) (pending_of p') (deleteInner w)
    | None => w
    end
  | Answer DeleteRequest gw =>
    match deleteInner w with
    | Some p =>
      let '(s, p') := settle gw now p (store w) in
      mkWorld s (promises w) (loadInner w) (pending_of p')
    | None => w
    end
  end.

(** The events with their clock readings, oldest first. *)
Fixpoint steps `{LocaleCompare} (evs : list (Z * Event)) (w : World) : World :=
  match evs with
  | [] => w
  | (now, ev) :: evs => steps evs (step now ev w)
  end.

(** The Gateway fulfils the request that [p] waits for. *)
Definition fulfils (gw : Gateway Service) (p : Task) : Prop :=
  match p with
  | Pending c _ => ∃ r, gw _ c = Fulfilled r
  | Finished _ => True
  end.

(** The events that are none of: [clearError]; the start of a paginated
    load, of a create, of a search that misses the cache, of an update of a
    record of the collection; the answer to a paginated load; an answer
    after which a promise is rejected; a rejected delete. *)
Definition quiet `{LocaleCompare} (now : Z) (w : World) (ev : Event) : Prop :=
  match ev with
  | Invoke (OpGetRecent _) | Invoke (OpDelete _) => True
  | Invoke (OpSearch query limit) =>
    is_Some (searchCache (store w) !! (query +:+ "_" +:+ pretty limit))
  | Invoke (OpUpdate id _) =>
    ∀ c, c ∈ categorias (store w) → Categoria.id c ≠ id
  | Invoke _ => False
  | Answer (Promise n) gw =>
    match promises w !! n with
    | Some (Some p) =>
      ∃ s', settle gw now p (store w) = (s', Finished (Returned tt))
    | _ => True
    end
  | Answer LoadRequest _ => loadInner w = None
  | Answer DeleteRequest gw =>
    match deleteInner w with
    | Some p => fulfils gw p
    | None => True
    end
  end.

Fixpoint quiet_trace `{LocaleCompare} (w : World) (evs : list (Z * Event))
    : Prop :=
  match evs with
  | [] => True
  | (now, ev) :: evs => quiet now w ev ∧ quiet_trace (step now ev w) evs
  end.

(** Where the pending work of a world comes from. *)
Definition async_task `{LocaleCompare} (p : Task) : Prop :=
  ∃ t op s, is_async op = true ∧ p = (run t (reaction op) s).2.

Definition delete_task `{LocaleCompare} (p : Task) : Prop :=
  ∃ t id s, p = (run t (deleteCategoria id) s).2.

Definition well_formed `{LocaleCompare} (w : World) : Prop :=
  (∀ n p, promises w !! n = Some (Some p) → async_task p)
  ∧ (∀ p, deleteInner w = Some p → delete_task p).

End CategoriaLoop.

(** The collation by code units, for the examples. *)
Definition codeUnitCompare : LocaleCompare :=
  λ a b, match String.compare a b with
         | Lt => (-1)%Z | Eq => 0%Z | Gt => 1%Z
         end.

(** A Gateway of categories that finds [found] for every search and
    confirms every delete. *)
Definition categoria_found (found : list Categoria.t)
    : Gateway CategoriaStore.Service :=
  λ R c,
    match c in CategoriaStore.Service R return Settled R with
    | CategoriaStore.svc_search _ _ =>
        Fulfilled (mkResult true (Some found) None)
    | CategoriaStore.svc_getRecent _ =>
        Fulfilled (mkResult true (Some (RecentArray found)) None)
    | CategoriaStore.svc_delete _ => Fulfilled tt
    | _ => Rejected (new_Error "unexpected request")
    end.

(** * Properties *)

(** ** Records addressed by identifier

    The stores address a record of the collection by its [id]:
    [find(c => c.id === i)], [map(c => c.id === i ? x : c)] and
    [filter(c => c.id !== i)]. *)

Section ById.
Context {T : Type} (key : T → string).

Lemma find_by_id_Some i (l : list T) r :
  find (λ c, bool_decide (key c = i)) l = Some r → r ∈ l ∧ key r = i.
Proof.
  intros Hf. apply find_some in Hf as [Hin Hk].
  split; [by apply list_elem_of_In | by apply bool_decide_eq_true in Hk].
Qed.

Lemma find_by_id_None i (l : list T) :
  find (λ c, bool_decide (key c = i)) l = None → ∀ c, c ∈ l → key c ≠ i.
Proof.
  intros Hf c Hin Hk. apply list_elem_of_In in Hin.
  pose proof (find_none _ _ Hf c Hin) as Hb. cbn in Hb.
  by apply bool_decide_eq_false in Hb.
Qed.

Lemma key_unique (l : list T) a b :
  NoDup (key <$> l) → a ∈ l → b ∈ l → key a = key b → a = b.
Proof.
  induction l as [|x l IH]; cbn; intros Hnd Ha Hb Hk; [by inversion Ha|].
  apply NoDup_cons in Hnd as [Hx Hnd].
  apply elem_of_cons in Ha as [->|Ha]; apply elem_of_cons in Hb as [->|Hb];
    auto.
  - destruct Hx. rewrite Hk. by apply list_elem_of_fmap_2.
  - destruct Hx. rewrite <- Hk. by apply list_elem_of_fmap_2.
Qed.

(** With distinct identifiers, [find] returns the record itself. *)
Lemma find_by_id_elem (l : list T) r :
  NoDup (key <$> l) → r ∈ l →
  find (λ c, bool_decide (key c = key r)) l = Some r.
Proof.
  intros Hnd Hin.
  destruct (find _ l) as [r'|] eqn:Hf.
  - apply find_by_id_Some in Hf as [Hin' Hk].
    f_equal. by apply (key_unique l).
  - by destruct (find_by_id_None _ _ Hf r Hin).
Qed.

Lemma modify_fresh i (g : T → T) (l : list T) :
  (∀ c, c ∈ l → key c ≠ i) →
  (λ c, if decide (key c = i) then g c else c) <$> l = l.
Proof.
  intros Hfresh. rewrite <- (list_fmap_id l) at 2.
  apply list_fmap_ext. intros n c Hc.
  destruct (decide (key c = i)) as [Hk|]; [|done].
  destruct (Hfresh c); [|done]. by eapply list_elem_of_lookup_2.
Qed.

Lemma replace_fresh i x (l : list T) :
  (∀ c, c ∈ l → key c ≠ i) →
  (λ c, if decide (key c = i) then x else c) <$> l = l.
Proof. apply (modify_fresh i (λ _, x)). Qed.

Lemma filter_fresh i (l : list T) :
  (∀ c, c ∈ l → key c ≠ i) → filter (λ c, key c ≠ i) l = l.
Proof.
  induction l as [|x l IH]; intros Hfresh; [done|].
  rewrite filter_cons_True; [|apply Hfresh; left].
  f_equal. apply IH. intros c Hc. apply Hfresh. by right.
Qed.

(** When [r] is the only record with its identifier, [find] returns it. *)
Lemma find_by_id_only (l : list T) r :
  r ∈ l → only_with_its_id key l r →
  find (λ c, bool_decide (key c = key r)) l = Some r.
Proof.
  intros Hin Honly.
  destruct (find _ l) as [r'|] eqn:Hf.
  - apply find_by_id_Some in Hf as [Hin' Hk]. f_equal. by apply Honly.
  - by destruct (find_by_id_None _ _ Hf r Hin).
Qed.

(** Rollback of an update: replacing by the captured record undoes the
    replacement by the merged one, as long as the merge keeps the
    identifier and no other record carries it. *)
Lemma restore_after_merge r (g : T → T) (l : list T) :
  only_with_its_id key l r →
  (∀ c, key c = key r → key (g c) = key r) →
  (λ c, if decide (key c = key r) then r else c)
    <$> ((λ c, if decide (key c = key r) then g c else c) <$> l) = l.
Proof.
  intros Honly Hg.
  rewrite <- list_fmap_compose. rewrite <- (list_fmap_id l) at 2.
  apply list_fmap_ext. intros n c Hc. cbn.
  apply list_elem_of_lookup_2 in Hc.
  destruct (decide (key c = key r)) as [Hk|Hk].
  - rewrite decide_True by auto. symmetry. by apply Honly.
  - by rewrite decide_False.
Qed.

(** Rollback of a delete: the removed record is the only one missing. *)
Lemma filter_out_Permutation (l : list T) r :
  NoDup (key <$> l) → r ∈ l →
  filter (λ c, key c ≠ key r) l ++ [r] ≡ₚ l.
Proof.
  induction l as [|x l IH]; intros Hnd Hin; [by inversion Hin|].
  rewrite fmap_cons in Hnd. apply NoDup_cons in Hnd as [Hx Hnd].
  apply elem_of_cons in Hin as [->|Hin].
  - rewrite filter_cons_False by (intros Hne; by apply Hne).
    rewrite filter_fresh.
    + by rewrite Permutation_app_comm.
    + intros c Hc Hk. apply Hx. rewrite <- Hk. by apply list_elem_of_fmap_2.
  - rewrite filter_cons_True.
    + cbn. by rewrite IH.
    + intros Hk. apply Hx. rewrite Hk. by apply list_elem_of_fmap_2.
Qed.
End ById.

(** * Rollback of an update *)

Lemma categoria_merge_id c p :
  keeps_id (Categoria.id c) (Categoria.p_id p) →
  Categoria.id (Categoria.merge c p) = Categoria.id c.
Proof. by intros [Hp|Hp]; cbn; rewrite Hp. Qed.

Lemma cliente_merge_id c p :
  keeps_id (Cliente.id c) (Cliente.p_id p) →
  Cliente.id (Cliente.merge c p) = Cliente.id c.
Proof. by intros [Hp|Hp]; cbn; rewrite Hp. Qed.

(** C1, as amended. For a record [r] that is the only record of the
    collection with its identifier and a partial update [p] that keeps the
    identifier: when [update(r.id, p)] is dispatched the collection holds
    the merged record in place of [r], and when the Gateway call fails
    (nothing else running in between) the collection is again the one
    before the call. In CategoriaStore and in ClienteStore. *)
Theorem update_rollback_exact :
  (∀ (gw : Gateway CategoriaStore.Service) t0 t1 s r p,
     r ∈ CategoriaStore.categorias s →
     only_with_its_id Categoria.id (CategoriaStore.categorias s) r →
     keeps_id (Categoria.id r) (Categoria.p_id p) →
     failed (gw _ (CategoriaStore.svc_update (Categoria.id r) p)) →
     CategoriaStore.categorias
       (fst (run t0 (CategoriaStore.update (Categoria.id r) p) s))
     = (λ c, if decide (Categoria.id c = Categoria.id r)
             then Categoria.merge c p else c) <$> CategoriaStore.categorias s
     ∧ CategoriaStore.categorias
         (fst (call gw t0 t1 (CategoriaStore.update (Categoria.id r) p) s))
       = CategoriaStore.categorias s)
  ∧ (∀ (gw : Gateway ClienteStore.Service) t0 t1 s r p,
     r ∈ ClienteStore.clientes s →
     only_with_its_id Cliente.id (ClienteStore.clientes s) r →
     keeps_id (Cliente.id r) (Cliente.p_id p) →
     failed (gw _ (ClienteStore.svc_update (Cliente.id r) p)) →
     ClienteStore.clientes
       (fst (run t0 (ClienteStore.update (Cliente.id r) p) s))
     = (λ c, if decide (Cliente.id c = Cliente.id r)
             then Cliente.merge c p else c) <$> ClienteStore.clientes s
     ∧ ClienteStore.clientes
         (fst (call gw t0 t1 (ClienteStore.update (Cliente.id r) p) s))
       = ClienteStore.clientes s).
Proof.
  split.
  - intros gw t0 t1 s r p Hin Honly Hp Hfail.
    pose proof (find_by_id_only Categoria.id _ r Hin Honly) as Hf.
    assert (Hrestore := restore_after_merge Categoria.id r
                          (λ c, Categoria.merge c p) _ Honly).
    unfold call, CategoriaStore.update. cbn. rewrite Hf. cbn.
    split; [done|].
    destruct (gw _ _) as [response|e]; cbn in *.
    + rewrite Hfail. cbn. apply Hrestore.
      intros c Hc. change (Categoria.id (Categoria.merge c p) = Categoria.id r).
      rewrite categoria_merge_id; [done | by rewrite Hc].
    + apply Hrestore.
      intros c Hc. change (Categoria.id (Categoria.merge c p) = Categoria.id r).
      rewrite categoria_merge_id; [done | by rewrite Hc].
  - intros gw t0 t1 s r p Hin Honly Hp Hfail.
    pose proof (find_by_id_only Cliente.id _ r Hin Honly) as Hf.
    assert (Hrestore := restore_after_merge Cliente.id r
                          (λ c, Cliente.merge c p) _ Honly).
    unfold call, ClienteStore.update. cbn. rewrite Hf. cbn.
    split; [done|].
    destruct (gw _ _) as [response|e]; cbn in *.
    + rewrite Hfail. cbn. apply Hrestore.
      intros c Hc. change (Cliente.id (Cliente.merge c p) = Cliente.id r).
      rewrite cliente_merge_id; [done | by rewrite Hc].
    + apply Hrestore.
      intros c Hc. change (Cliente.id (Cliente.merge c p) = Cliente.id r).
      rewrite cliente_merge_id; [done | by rewrite Hc].
Qed.

Lemma update_rollback_exact_witness :
  let r := Categoria.mk "a" "x" "" 0 "" in
  let s := CategoriaStore.set_categorias [r; Categoria.mk "b" "y" "" 0 ""]
             CategoriaStore.initialState in
  let p := Categoria.mkPartial None (Some "z") None None None in
  CategoriaStore.categorias
    (fst (run 1 (CategoriaStore.update "a" p) s))
  = [Categoria.mk "a" "z" "" 0 ""; Categoria.mk "b" "y" "" 0 ""]
  ∧ CategoriaStore.categorias
      (fst (call (rejecting (new_Error "boom")) 1 2
              (CategoriaStore.update "a" p) s))
    = CategoriaStore.categorias s.
Proof.
  intros r s p.
  refine (proj1 update_rollback_exact (rejecting (new_Error "boom")) 1%Z 2%Z s r p
            _ _ _ _).
  - cbn. left.
  - intros c Hc Hk. cbn in Hc.
    apply elem_of_cons in Hc as [->|Hc]; [done|].
    apply list_elem_of_singleton in Hc as ->. discriminate Hk.
  - by left.
  - exact I.
Defined.

(** C1, as stated, fails: a partial update that carries another [id] moves
    the record to that identifier, the rollback looks for the old one and
    finds nothing to replace, and the merged record stays. *)
Lemma update_rollback_residual :
  let r := Categoria.mk "a" "x" "" 0 "" in
  let s := CategoriaStore.set_categorias [r] CategoriaStore.initialState in
  let p := Categoria.mkPartial (Some "b") None None None None in
  let gw : Gateway CategoriaStore.Service := rejecting (new_Error "boom") in
  r ∈ CategoriaStore.categorias s
  ∧ failed (gw _ (CategoriaStore.svc_update (Categoria.id r) p))
  ∧ CategoriaStore.categorias
      (fst (call gw 1 2 (CategoriaStore.update (Categoria.id r) p) s))
    = [Categoria.mk "b" "x" "" 0 ""]
  ∧ CategoriaStore.categorias
      (fst (call gw 1 2 (CategoriaStore.update (Categoria.id r) p) s))
    ≠ CategoriaStore.categorias s.
Proof.
  intros r s p gw. split; [cbn; left|]. split; [exact I|].
  split; [reflexivity|]. intros Heq. vm_compute in Heq. discriminate Heq.
Qed.

(** The other hypothesis of the amended C1: when two records share the
    identifier (two temporary records of the same millisecond), the rollback
    overwrites both with the first one. *)
Example update_rollback_shared_id :
  let s := CategoriaStore.set_categorias
             [Categoria.mk "temp_5" "a" "" 5 ""; Categoria.mk "temp_5" "b" "" 5 ""]
             CategoriaStore.initialState in
  let p := Categoria.mkPartial None None (Some "x") None None in
  CategoriaStore.categorias
    (fst (call (rejecting (new_Error "boom")) 6 7
            (CategoriaStore.update "temp_5" p) s))
  = [Categoria.mk "temp_5" "a" "" 5 ""; Categoria.mk "temp_5" "a" "" 5 ""].
Proof. reflexivity. Qed.

(** * Rollback of a delete *)

Lemma find_after_filter {T} (key : T → string) i (l : list T) :
  find (λ c, bool_decide (key c = i)) (filter (λ c, key c ≠ i) l) = None.
Proof.
  destruct (find _ _) as [r|] eqn:Hf; [|done].
  apply find_by_id_Some in Hf as [Hin Hk].
  apply list_elem_of_filter in Hin as [Hne _]. by destruct Hne.
Qed.

(** C2 on the code. A failed [deleteCategoria] and a failed [deleteGasto]
    leave the record removed and the count decremented: [deleteGasto] has no
    rollback in its error callback, and [deleteCategoria] looks for the
    record to restore (and reads the count) after its [tap] has removed it. *)
Theorem delete_failed_not_rolled_back :
  (∀ (lc : LocaleCompare) e t0 t1 id s,
     let s' := fst (call (rejecting e) t0 t1
                      (CategoriaStore.deleteCategoria id) s) in
     CategoriaStore.categorias s'
     = filter (λ c, Categoria.id c ≠ id) (CategoriaStore.categorias s)
     ∧ CategoriaStore.totalRecords s' = (CategoriaStore.totalRecords s - 1)%Z)
  ∧ (∀ e t0 t1 id s,
     let s' := fst (call (rejecting e) t0 t1 (GastosStore.deleteGasto id) s) in
     GastosStore.gastos s'
     = filter (λ g, Gasto.id g ≠ id) (GastosStore.gastos s)
     ∧ GastosStore.totalRecords s' = (GastosStore.totalRecords s - 1)%Z).
Proof.
  split.
  - intros lc e t0 t1 id s. unfold call, CategoriaStore.deleteCategoria. cbn.
    rewrite (find_after_filter Categoria.id). by cbn.
  - intros e t0 t1 id s. by cbn.
Qed.

(** The scenario of the specification: deleting "cat-1" with the Gateway
    refusing leaves an empty collection and a count of 0 instead of 1. *)
Example deleteCategoria_failed_example (lc : LocaleCompare) :
  let s := CategoriaStore.set_totalRecords 1
             (CategoriaStore.set_categorias [Categoria.mk "cat-1" "A" "" 0 ""]
                CategoriaStore.initialState) in
  let s' := fst (call (rejecting (mkJsError None None (Some "no")))
                   1 2 (CategoriaStore.deleteCategoria "cat-1") s) in
  CategoriaStore.categorias s' = [] ∧ CategoriaStore.totalRecords s' = 0%Z
  ∧ CategoriaStore.error s' = Some "no".
Proof. by vm_compute. Qed.

Example deleteGasto_failed_example :
  let g := Gasto.mk "g-1" "" "" "" "" "" "" "" "" "" "" "" "" 10 "" None "" in
  let s := GastosStore.set_totalRecords 1
             (GastosStore.set_gastos [g] GastosStore.initialState) in
  let s' := fst (call (rejecting (mkJsError None None (Some "no")))
                   1 2 (GastosStore.deleteGasto "g-1") s) in
  GastosStore.gastos s' = [] ∧ GastosStore.totalRecords s' = 0%Z.
Proof. by vm_compute. Qed.

(** The sibling [deleteCliente] captures before it removes, and does what
    C2 says: the record is back (the collection re-sorted by name) and the
    count is the one before the optimistic decrement. *)
Lemma deleteCliente_failed_restores (lc : LocaleCompare) e t0 t1 s r :
  NoDup (Cliente.id <$> ClienteStore.clientes s) →
  r ∈ ClienteStore.clientes s →
  let s' := fst (call (rejecting e) t0 t1
                   (ClienteStore.deleteCliente (Cliente.id r)) s) in
  ClienteStore.clientes s' ≡ₚ ClienteStore.clientes s
  ∧ ClienteStore.totalRecords s' = ClienteStore.totalRecords s.
Proof.
  intros Hnd Hin.
  pose proof (find_by_id_elem Cliente.id _ r Hnd Hin) as Hf.
  unfold call, ClienteStore.deleteCliente. cbn. rewrite Hf. cbn.
  split; [|done].
  unfold sort_by_nombre. rewrite merge_sort_Permutation.
  by apply (filter_out_Permutation Cliente.id).
Qed.

(** * Reconciliation of a create *)

Section Reconcile.
Context {T : Type} (key : T → string).
Variables (tempId X : string) (tmp real : T) (l : list T).
Hypothesis fresh : ∀ c, c ∈ l → key c ≠ tempId ∧ key c ≠ X.
Hypothesis distinct : X ≠ tempId.
Hypothesis key_tmp : key tmp = tempId.
Hypothesis key_real : key real = X.


Lemma replace_temp_head :
  (λ c, if decide (key c = tempId) then real else c) <$> (tmp :: l)
  = real :: l.
Proof.
  cbn. rewrite decide_True by done.
  change (list_fmap T T ?f l) with (f <$> l).
  rewrite replace_fresh; [done|]. intros c Hc. by apply fresh.
Qed.


End Reconcile.




(** The hypothesis on [X] of the amended C3: the confirmed record is not
    checked against the collection, so an identifier already present ends up
    twice. *)
Example create_existing_id :
  let s := CategoriaStore.set_categorias [Categoria.mk "8" "x" "" 0 ""]
             CategoriaStore.initialState in
  Categoria.id <$>
    CategoriaStore.categorias
      (fst (call (categoria_created "8") 5 9 (CategoriaStore.create "a") s))
  = ["8"; "8"].
Proof. reflexivity. Qed.

(** * Total count across a failed create *)

(** C4 on the code. [ClienteStore.create] and [CategoriaStore.create] do not
    touch [totalRecords] in their optimistic phase; the rollback of
    [ClienteStore.create] decrements it all the same, so a failed create
    leaves the count one below its value before the call. *)
Theorem create_failed_totalRecords :
  (∀ e t0 t1 nombre s,
     ClienteStore.totalRecords (fst (run t0 (ClienteStore.create nombre) s))
     = ClienteStore.totalRecords s
     ∧ ClienteStore.totalRecords
         (fst (call (rejecting e) t0 t1 (ClienteStore.create nombre) s))
       = (ClienteStore.totalRecords s - 1)%Z)
  ∧ (∀ e t0 t1 nombre s,
     CategoriaStore.totalRecords
       (fst (run t0 (CategoriaStore.create nombre) s))
     = CategoriaStore.totalRecords s
     ∧ CategoriaStore.totalRecords
         (fst (call (rejecting e) t0 t1 (CategoriaStore.create nombre) s))
       = CategoriaStore.totalRecords s).
Proof. by split; intros e t0 t1 nombre s; cbn. Qed.

Example cliente_create_failed_example :
  let s := ClienteStore.set_totalRecords 3 ClienteStore.initialState in
  let s' := fst (call (rejecting (new_Error "offline")) 5 9
                   (ClienteStore.create "Ana") s) in
  ClienteStore.clientes s' = [] ∧ ClienteStore.totalRecords s' = 2%Z.
Proof. by vm_compute. Qed.

(** The same rollback fails through the envelope as well. *)
Lemma cliente_create_failed_envelope (gw : Gateway ClienteStore.Service)
    t0 t1 nombre s :
  failed (gw _ (ClienteStore.svc_create nombre)) →
  ClienteStore.totalRecords
    (fst (call gw t0 t1 (ClienteStore.create nombre) s))
  = (ClienteStore.totalRecords s - 1)%Z.
Proof.
  intros Hfail. unfold call, ClienteStore.create. cbn.
  destruct (gw _ _) as [response|e]; cbn in *; [|done].
  by rewrite Hfail.
Qed.

(** The sibling [createGasto] does what C4 says: one more at dispatch, and
    the count before the call again after a failure. *)
Lemma createGasto_failed_totalRecords e t0 t1 sib gasto s :
  GastosStore.totalRecords
    (fst (run t0 (GastosStore.createGasto sib gasto) s))
  = (GastosStore.totalRecords s + 1)%Z
  ∧ GastosStore.totalRecords
      (fst (call (rejecting e) t0 t1 (GastosStore.createGasto sib gasto) s))
    = GastosStore.totalRecords s.
Proof. cbn. split; [done|lia]. Qed.

(** * The store state when the request is dispatched *)

(** C5, as amended. The creates, updates and deletes of CategoriaStore,
    ClienteStore and GastosStore modelled here change the collection in the
    synchronous run that ends with the dispatch of the Gateway request: the
    temporary record is in, the partial update is merged into the records
    with that identifier, the deleted record is out. IngresosStore is not
    optimistic: at dispatch its collection is the one before the call (only
    the in-flight flag is set and the error slot reset), and the change is
    applied when the successful response arrives. *)
Theorem optimistic_before_dispatch :
  (∀ t0 nombre s,
     let '(s1, p) := run t0 (CategoriaStore.create nombre) s in
     dispatched p (CategoriaStore.svc_create nombre)
     ∧ CategoriaStore.categorias s1
       = CategoriaStore.categorias s
           ++ [Categoria.mk (temp_id t0) nombre "" t0 ""])
  ∧ (∀ t0 id p s,
     let '(s1, q) := run t0 (CategoriaStore.update id p) s in
     dispatched q (CategoriaStore.svc_update id p)
     ∧ CategoriaStore.categorias s1
       = (λ c, if decide (Categoria.id c = id)
               then Categoria.merge c p else c) <$> CategoriaStore.categorias s)
  ∧ (∀ (lc : LocaleCompare) t0 id s,
     let '(s1, p) := run t0 (CategoriaStore.deleteCategoria id) s in
     dispatched p (CategoriaStore.svc_delete id)
     ∧ CategoriaStore.categorias s1
       = filter (λ c, Categoria.id c ≠ id) (CategoriaStore.categorias s))
  ∧ (∀ t0 nombre s,
     let '(s1, p) := run t0 (ClienteStore.create nombre) s in
     dispatched p (ClienteStore.svc_create nombre)
     ∧ ClienteStore.clientes s1
       = ClienteStore.clientes s ++ [Cliente.mk (temp_id t0) nombre t0 ""])
  ∧ (∀ t0 id p s,
     let '(s1, q) := run t0 (ClienteStore.update id p) s in
     dispatched q (ClienteStore.svc_update id p)
     ∧ ClienteStore.clientes s1
       = (λ c, if decide (Cliente.id c = id)
               then Cliente.merge c p else c) <$> ClienteStore.clientes s)
  ∧ (∀ (lc : LocaleCompare) t0 id s,
     let '(s1, p) := run t0 (ClienteStore.deleteCliente id) s in
     dispatched p (ClienteStore.svc_delete id)
     ∧ ClienteStore.clientes s1
       = filter (λ c, Cliente.id c ≠ id) (ClienteStore.clientes s))
  ∧ (∀ t0 sib gasto s,
     let '(s1, p) := run t0 (GastosStore.createGasto sib gasto) s in
     dispatched p (GastosStore.svc_create gasto)
     ∧ ∃ tempGasto, Gasto.id tempGasto = temp_id t0
         ∧ GastosStore.gastos s1 = tempGasto :: GastosStore.gastos s)
  ∧ (∀ t0 id s,
     let '(s1, p) := run t0 (GastosStore.deleteGasto id) s in
     dispatched p (GastosStore.svc_delete id)
     ∧ GastosStore.gastos s1
       = filter (λ g, Gasto.id g ≠ id) (GastosStore.gastos s))
  ∧ (∀ (IC IP : Type) t0 (ingreso : IC) s,
     let '(s1, p) := run t0 (IngresosStore.createIngreso (IngresoPartial:=IP)
                               ingreso) s in
     dispatched p (IngresosStore.svc_create ingreso)
     ∧ IngresosStore.ingresos s1 = IngresosStore.ingresos s
     ∧ IngresosStore.loading s1 = true
     ∧ ∀ (gw : Gateway (IngresosStore.Service IC IP)) t1 newIngreso,
         gw _ (IngresosStore.svc_create ingreso) = Fulfilled newIngreso →
         IngresosStore.ingresos (fst (settle gw t1 p s1))
         = IngresosStore.ingresos s ++ [newIngreso])
  ∧ (∀ (IC IP : Type) t0 id (ingreso : IP) s,
     let '(s1, p) := run t0 (IngresosStore.updateIngreso (IngresoCreate:=IC)
                               id ingreso) s in
     dispatched p (IngresosStore.svc_update id ingreso)
     ∧ IngresosStore.ingresos s1 = IngresosStore.ingresos s
     ∧ IngresosStore.loading s1 = true
     ∧ ∀ (gw : Gateway (IngresosStore.Service IC IP)) t1 updatedIngreso,
         gw _ (IngresosStore.svc_update id ingreso) = Fulfilled updatedIngreso →
         IngresosStore.ingresos (fst (settle gw t1 p s1))
         = (λ i, if decide (Ingreso.id i = id) then updatedIngreso else i)
             <$> IngresosStore.ingresos s)
  ∧ (∀ (IC IP : Type) t0 id s,
     let '(s1, p) := run t0 (IngresosStore.deleteIngreso (IngresoCreate:=IC)
                               (IngresoPartial:=IP) id) s in
     dispatched p (IngresosStore.svc_delete id)
     ∧ IngresosStore.ingresos s1 = IngresosStore.ingresos s
     ∧ IngresosStore.loading s1 = true
     ∧ ∀ (gw : Gateway (IngresosStore.Service IC IP)) t1,
         gw _ (IngresosStore.svc_delete id) = Fulfilled tt →
         IngresosStore.ingresos (fst (settle gw t1 p s1))
         = filter (λ i, Ingreso.id i ≠ id) (IngresosStore.ingresos s)).
Proof.
  repeat apply conj.
  - intros t0 nombre s. cbn. split; [by eexists|done].
  - intros t0 id p s. unfold CategoriaStore.update. cbn.
    destruct (find _ _) as [r|] eqn:Hf; cbn; (split; [by eexists|]); [done|].
    symmetry. apply (modify_fresh Categoria.id id (λ c, Categoria.merge c p)).
    by apply find_by_id_None.
  - intros lc t0 id s. cbn. split; [by eexists|done].
  - intros t0 nombre s. cbn. split; [by eexists|done].
  - intros t0 id p s. unfold ClienteStore.update. cbn.
    destruct (find _ _) as [r|] eqn:Hf; cbn; (split; [by eexists|]); [done|].
    symmetry. apply (modify_fresh Cliente.id id (λ c, Cliente.merge c p)).
    by apply find_by_id_None.
  - intros lc t0 id s. cbn. split; [by eexists|done].
  - intros t0 sib gasto s. cbn. split; [by eexists|].
    eexists. split; [|reflexivity]. reflexivity.
  - intros t0 id s. cbn. split; [by eexists|done].
  - intros IC IP t0 ingreso s. cbn. repeat split; [by eexists|].
    intros gw t1 newIngreso Hgw. cbn. by rewrite Hgw.
  - intros IC IP t0 id ingreso s. cbn. repeat split; [by eexists|].
    intros gw t1 updatedIngreso Hgw. cbn. by rewrite Hgw.
  - intros IC IP t0 id s. cbn. repeat split; [by eexists|].
    intros gw t1 Hgw. cbn. by rewrite Hgw.
Qed.

Lemma optimistic_before_dispatch_witness :
  let new := Ingreso.mk "i-1" 1200 "2025-01-31" None None in
  let '(s1, p) := run 1 (IngresosStore.createIngreso (IngresoPartial:=unit)
                           "nomina") IngresosStore.initialState in
  IngresosStore.ingresos s1 = []
  ∧ IngresosStore.ingresos (fst (settle (ingreso_gateway new) 2 p s1)) = [new].
Proof.
  intros new.
  destruct optimistic_before_dispatch
    as (_ & _ & _ & _ & _ & _ & _ & _ & Hcreate & _).
  specialize (Hcreate string unit 1%Z "nomina" IngresosStore.initialState).
  cbn in Hcreate. destruct Hcreate as (_ & Hsame & _ & Hlater).
  split; [exact Hsame|].
  exact (Hlater (ingreso_gateway new) 2%Z new eq_refl).
Defined.

(** C5, as stated, fails: when [deleteIngreso] dispatches its request the
    record is still in the collection; it leaves when the Gateway has
    confirmed. *)
Lemma deleteIngreso_not_optimistic :
  let i := Ingreso.mk "i-1" 1200 "2025-01-31" None None in
  let s := IngresosStore.set_ingresos [i] IngresosStore.initialState in
  let '(s1, p) := run 1 (IngresosStore.deleteIngreso "i-1") s in
  dispatched p (IngresosStore.svc_delete "i-1")
  ∧ IngresosStore.ingresos s1 = [i]
  ∧ IngresosStore.ingresos (fst (settle (ingreso_gateway i) 2 p s1)) = [].
Proof. cbn. split; [by eexists|]. split; reflexivity. Qed.

(** * Supersession of paginated loads *)

Section Supersession.
Context {St : Type} {Call : Type → Type} {In : Type}.
Variable method : In → Async St Call unit.

(** Responses to a request that is not the subscribed one are dropped. *)
Lemma stale_responses_dropped n p evs (w : Rx.World) :
  Rx.inner w = Some (n, p) →
  Forall (Rx.responds_not_to n) evs →
  Rx.steps method evs w = w.
Proof.
  intros Hinner Hevs. induction Hevs as [|[t ev] evs Hev _ IH]; [done|].
  cbn. destruct ev as [x|m gw]; [done|]. cbn in Hev.
  replace (Rx.step method t (Rx.Respond m gw) w) with w; [done|].
  unfold Rx.step. rewrite Hinner. by rewrite decide_False by congruence.
Qed.

(** With no subscription, every response is dropped. *)
Lemma unsubscribed_responses_dropped evs (w : Rx.World) :
  Rx.inner w = None →
  Forall Rx.is_response evs →
  Rx.steps method evs w = w.
Proof.
  intros Hinner Hevs. induction Hevs as [|[t ev] evs Hev _ IH]; [done|].
  cbn. destruct ev as [x|m gw]; [done|].
  replace (Rx.step method t (Rx.Respond m gw) w) with w; [done|].
  unfold Rx.step. by rewrite Hinner.
Qed.

Lemma steps_app evs1 evs2 (w : Rx.World) :
  Rx.steps method (evs1 ++ evs2) w
  = Rx.steps method evs2 (Rx.steps method evs1 w).
Proof.
  revert w. induction evs1 as [|[t ev] evs1 IH]; intros w; [done|]. apply IH.
Qed.
(** Every emission subscribes to a request. *)
Hypothesis always_requests :
  ∀ t x s, ∃ R (c : Call R) k, (run t (method x) s).2 = Pending c k.

Lemma emit_subscribes t x (w : Rx.World) :
  ∃ s p, Rx.step method t (Rx.Emit x) w
         = Rx.mkWorld s (Some (Rx.issued w, p)) (S (Rx.issued w)).
Proof.
  unfold Rx.step. destruct (always_requests t x (Rx.store w)) as (R & c & k & Hp).
  destruct (run t (method x) (Rx.store w)) as [s p]. cbn in Hp. subst p.
  by eexists _, _.
Qed.

(** After [x1] and [x2] have been emitted, only the response to the second
    request counts: the responses to other requests that arrive before it
    ([early]) and everything that arrives after it ([late]) change
    nothing. *)
Lemma superseded ta tb t2 x1 x2 gw2 early late (w0 : Rx.World) :
  Forall (Rx.responds_not_to (S (Rx.issued w0))) early →
  Forall Rx.is_response late →
  let issue := [(ta, Rx.Emit x1); (tb, Rx.Emit x2)] in
  let answer := [(t2, Rx.Respond (S (Rx.issued w0)) gw2)] in
  Rx.steps method (issue ++ early) w0 = Rx.steps method issue w0
  ∧ Rx.steps method (issue ++ early ++ answer ++ late) w0
    = Rx.steps method (issue ++ answer) w0.
Proof.
  intros Hearly Hlate issue answer. subst issue answer.
  rewrite !steps_app. cbn [Rx.steps].
  destruct (emit_subscribes ta x1 w0) as (s1 & p1 & ->).
  destruct (emit_subscribes tb x2 (Rx.mkWorld s1 (Some (Rx.issued w0, p1))
                                     (S (Rx.issued w0)))) as (s2 & p2 & ->).
  cbn [Rx.issued] in *.
  rewrite (stale_responses_dropped (S (Rx.issued w0)) p2 early) by done.
  split; [done|].
  apply unsubscribed_responses_dropped; [|done].
  cbn. by rewrite decide_True.
Qed.
End Supersession.

Lemma loadCategoriasPaginated_requests t q s :
  ∃ R (c : CategoriaStore.Service R) k,
    (run t (CategoriaStore.loadCategoriasPaginated q) s).2 = Pending c k.
Proof. by eexists _, _, _. Qed.

Lemma loadGastos_requests t x s :
  ∃ R (c : GastosStore.Service R) k,
    (run t (loadGastos x) s).2 = Pending c k.
Proof. by eexists _, _, _. Qed.

(** C6. [Q1] then [Q2] are emitted on the stream of the paginated load, with
    [Q1] still in flight (they are the requests number [n] and [n + 1] of the
    pipeline). Whatever responses to other requests arrive before the
    response to [Q2] ([early]: the response to [Q1] among them) and whatever
    arrives after it ([late]), the store ends in the state that the response
    to [Q2] alone produces; until [Q2] is answered the collection is the one
    before the loads; and when the Gateway returns a page for [Q2], the
    collection and the total count are at the end those of that page. In
    CategoriaStore and in GastosStore. *)
Theorem load_supersession :
  (∀ (w0 : Rx.World) q1 q2 ta tb t2 (gw2 : Gateway CategoriaStore.Service)
     early late,
     Forall (Rx.responds_not_to (S (Rx.issued w0))) early →
     Forall Rx.is_response late →
     let load := CategoriaStore.loadCategoriasPaginated in
     let issue := [(ta, Rx.Emit q1); (tb, Rx.Emit q2)] in
     let answer := [(t2, Rx.Respond (S (Rx.issued w0)) gw2)] in
     let w1 := Rx.steps load (issue ++ early) w0 in
     let w2 := Rx.steps load (issue ++ early ++ answer ++ late) w0 in
     w2 = Rx.steps load (issue ++ answer) w0
     ∧ CategoriaStore.categorias (Rx.store w1)
       = CategoriaStore.categorias (Rx.store w0)
     ∧ ∀ page2,
         gw2 _ (CategoriaStore.svc_getCategorias q2) = Fulfilled page2 →
         CategoriaStore.categorias (Rx.store w2) = items page2
         ∧ CategoriaStore.totalRecords (Rx.store w2) = totalCount page2)
  ∧ (∀ (w0 : Rx.World) q1 q2 ta tb t2 (gw2 : Gateway GastosStore.Service)
     early late,
     Forall (Rx.responds_not_to (S (Rx.issued w0))) early →
     Forall Rx.is_response late →
     let issue := [(ta, Rx.Emit q1); (tb, Rx.Emit q2)] in
     let answer := [(t2, Rx.Respond (S (Rx.issued w0)) gw2)] in
     let w1 := Rx.steps loadGastos (issue ++ early) w0 in
     let w2 := Rx.steps loadGastos (issue ++ early ++ answer ++ late) w0 in
     w2 = Rx.steps loadGastos (issue ++ answer) w0
     ∧ GastosStore.gastos (Rx.store w1) = GastosStore.gastos (Rx.store w0)
     ∧ ∀ page2,
         gw2 _ (GastosStore.svc_getGastos q2.1 q2.2) = Fulfilled page2 →
         GastosStore.gastos (Rx.store w2) = items page2
         ∧ GastosStore.totalRecords (Rx.store w2) = totalCount page2).
Proof.
  split.
  - intros w0 q1 q2 ta tb t2 gw2 early late Hearly Hlate
      load issue answer w1 w2.
    destruct (superseded load loadCategoriasPaginated_requests
                ta tb t2 q1 q2 gw2 early late w0 Hearly Hlate) as [H1 H2].
    subst w1 w2. fold issue answer in H1, H2. rewrite H1, H2.
    split; [done|]. split; [done|].
    intros page2 Hgw. subst issue answer load. cbn.
    rewrite decide_True by done. cbn. by rewrite Hgw.
  - intros w0 q1 q2 ta tb t2 gw2 early late Hearly Hlate
      issue answer w1 w2.
    destruct (superseded loadGastos loadGastos_requests
                ta tb t2 q1 q2 gw2 early late w0 Hearly Hlate) as [H1 H2].
    subst w1 w2. fold issue answer in H1, H2. rewrite H1, H2.
    split; [done|]. split; [done|].
    intros page2 Hgw. subst issue answer. cbn.
    rewrite decide_True by done. cbn. by rewrite Hgw.
Qed.

Lemma load_supersession_witness :
  let q1 := mkPageQuery 1 10 (Some "a") None None in
  let q2 := mkPageQuery 1 10 (Some "ab") None None in
  let page1 := mkPaged [Categoria.mk "1" "a" "" 0 ""; Categoria.mk "2" "ab" "" 0 ""] 2 in
  let page2 := mkPaged [Categoria.mk "2" "ab" "" 0 ""] 1 in
  let load := CategoriaStore.loadCategoriasPaginated in
  let w := Rx.steps load
             [(1%Z, Rx.Emit q1); (2%Z, Rx.Emit q2);
              (3%Z, Rx.Respond 1 (categoria_page page2));
              (4%Z, Rx.Respond 0 (categoria_page page1))]
             (Rx.start CategoriaStore.initialState) in
  CategoriaStore.categorias (Rx.store w) = items page2
  ∧ CategoriaStore.totalRecords (Rx.store w) = totalCount page2.
Proof.
  intros q1 q2 page1 page2 load w.
  refine (proj2 (proj2 (proj1 load_supersession
                          (Rx.start CategoriaStore.initialState)
                          q1 q2 1%Z 2%Z 3%Z (categoria_page page2) []
                          [(4%Z, Rx.Respond 0 (categoria_page page1))] _ _))
            page2 _).
  - constructor.
  - repeat constructor.
  - reflexivity.
Defined.

(** * Invalidation of the search cache *)

Lemma empty_cache_invalidated s :
  CategoriaStore.searchCache s = ∅ → cache_invalidated s.
Proof.
  intros Hempty. split; [done|]. intros t query limit.
  unfold CategoriaStore.search. cbn. rewrite Hempty, lookup_empty. cbn.
  by eexists.
Qed.

(** C7, as amended. In CategoriaStore, when the success of a create or of an
    update is handled, the search cache is emptied, whatever the store has
    become while the call was in flight ([s1]): a search that follows,
    whatever its key, dispatches a request to the Gateway instead of
    returning a cached list. A delete empties the cache when it is issued,
    before its request, and its confirmation leaves the cache as it finds
    it: after a confirmed delete the cache is empty when nothing has run in
    between. *)
Theorem cache_invalidated_after_success :
  (∀ (gw : Gateway CategoriaStore.Service) t0 t1 nombre s s1 s' x,
     settle gw t1 (snd (run t0 (CategoriaStore.create nombre) s)) s1
     = (s', Finished (Returned x)) →
     cache_invalidated s')
  ∧ (∀ (gw : Gateway CategoriaStore.Service) t0 t1 id p s s1 s' x,
     settle gw t1 (snd (run t0 (CategoriaStore.update id p) s)) s1
     = (s', Finished (Returned x)) →
     cache_invalidated s')
  ∧ (∀ (lc : LocaleCompare) t0 id s,
     cache_invalidated (fst (run t0 (CategoriaStore.deleteCategoria id) s)))
  ∧ (∀ (lc : LocaleCompare) (gw : Gateway CategoriaStore.Service)
       t0 t1 id s s1,
     gw _ (CategoriaStore.svc_delete id) = Fulfilled tt →
     CategoriaStore.searchCache
       (fst (settle gw t1
               (snd (run t0 (CategoriaStore.deleteCategoria id) s)) s1))
     = CategoriaStore.searchCache s1)
  ∧ (∀ (lc : LocaleCompare) (gw : Gateway CategoriaStore.Service) t0 t1 id s,
     gw _ (CategoriaStore.svc_delete id) = Fulfilled tt →
     cache_invalidated
       (fst (call gw t0 t1 (CategoriaStore.deleteCategoria id) s))).
Proof.
  repeat apply conj.
  - intros gw t0 t1 nombre s s1 s' x. unfold CategoriaStore.create. cbn.
    destruct (gw _ _) as [response|e]; cbn; [|discriminate].
    destruct (isSuccess response); cbn; [|discriminate].
    destruct (bool_decide _); cbn; [|discriminate].
    intros [= <- _]. by apply empty_cache_invalidated.
  - intros gw t0 t1 id p s s1 s' x. unfold CategoriaStore.update. cbn.
    destruct (find _ _) as [r|]; cbn;
      (destruct (gw _ _) as [response|e]; cbn; [|discriminate]);
      (destruct (isSuccess response); cbn; [|discriminate]);
      intros [= <- _]; by apply empty_cache_invalidated.
  - intros lc t0 id s. by apply empty_cache_invalidated.
  - intros lc gw t0 t1 id s s1 Hgw.
    unfold CategoriaStore.deleteCategoria. cbn. by rewrite Hgw.
  - intros lc gw t0 t1 id s Hgw.
    unfold call, CategoriaStore.deleteCategoria. cbn. rewrite Hgw.
    by apply empty_cache_invalidated.
Qed.

Lemma cache_invalidated_after_success_witness :
  let s := CategoriaStore.set_searchCache
             {[ "foo_10" := [Categoria.mk "7" "foo" "" 0 ""] ]}
             CategoriaStore.initialState in
  let s1 := CategoriaStore.set_searchCache
              {[ "bar_10" := [Categoria.mk "9" "bar" "" 0 ""] ]}
              (fst (run 5 (CategoriaStore.create "bar") s)) in
  let s' := fst (settle (categoria_created "8") 9
                   (snd (run 5 (CategoriaStore.create "bar") s)) s1) in
  cache_invalidated s'.
Proof.
  intros s s1 s'.
  refine (proj1 cache_invalidated_after_success (categoria_created "8")
            5%Z 9%Z "bar" s s1 s' "8" _).
  reflexivity.
Defined.

(** C7, as stated, fails: the cache is emptied when the delete is issued,
    not when it is confirmed. A search answered while the delete is in
    flight caches its list again, with the record being deleted in it, and
    after the confirmation the same search is served that stale list. *)
Lemma delete_confirmed_stale_cache :
  let cat := Categoria.mk "cat-1" "foo" "" 0 "" in
  let s := CategoriaStore.set_searchCache {[ "foo_10" := [cat] ]}
             (CategoriaStore.set_totalRecords 1
                (CategoriaStore.set_categorias [cat]
                   CategoriaStore.initialState)) in
  let gw := categoria_found [cat] in
  let '(s1, deleting) :=
    run 1 (CategoriaStore.deleteCategoria (H:=codeUnitCompare) "cat-1") s in
  let '(s2, searched) := call gw 2 3 (CategoriaStore.search "foo" 10) s1 in
  let '(s3, deleted) := settle gw 4 deleting s2 in
  CategoriaStore.searchCache s1 = ∅
  ∧ searched = Finished (Returned [cat])
  ∧ deleted = Finished (Returned tt)
  ∧ CategoriaStore.categorias s3 = []
  ∧ CategoriaStore.searchCache s3 !! "foo_10" = Some [cat]
  ∧ run 5 (CategoriaStore.search "foo" 10) s3
    = (s3, Finished (Returned [cat])).
Proof. cbn. repeat split. Qed.

(** The cache hit that the invalidation prevents: before the create, the
    same search returns the cached list without a request. *)
Example search_cache_hit :
  let cached := [Categoria.mk "7" "foo" "" 0 ""] in
  let s := CategoriaStore.set_searchCache {[ "foo_10" := cached ]}
             CategoriaStore.initialState in
  run 1 (CategoriaStore.search "foo" 10) s = (s, Finished (Returned cached)).
Proof. reflexivity. Qed.

(** * Failures of the read-only loads *)

(** C8, as amended. In CategoriaStore a failure of the Gateway is caught by
    each read-only load. The paginated load records a message in the error
    slot, leaves the collection as it is and does not throw. [search] (on a
    cache miss) records the message of the error and throws the error to its
    caller again; [getRecent] clears the in-flight flag and throws the error
    to its caller again. *)
Theorem read_failures_at_the_boundary :
  (∀ e t0 t1 q s,
     let '(s', o) := call (rejecting e) t0 t1
                       (CategoriaStore.loadCategoriasPaginated q) s in
     o = Finished (Returned tt)
     ∧ CategoriaStore.error s'
       = Some (or_str (userMessage e) "Error al cargar categorías")
     ∧ CategoriaStore.loading s' = false
     ∧ CategoriaStore.categorias s' = CategoriaStore.categorias s)
  ∧ (∀ (gw : Gateway CategoriaStore.Service) t0 t1 query limit s,
     CategoriaStore.searchCache s !! (query +:+ "_" +:+ pretty limit) = None →
     failed (gw _ (CategoriaStore.svc_search query limit)) →
     let '(s', o) := call gw t0 t1 (CategoriaStore.search query limit) s in
     ∃ err, o = Finished (Thrown err)
       ∧ (∀ e, gw _ (CategoriaStore.svc_search query limit) = Rejected e →
               err = e)
       ∧ CategoriaStore.error s' = message err
       ∧ CategoriaStore.loading s' = false)
  ∧ (∀ (gw : Gateway CategoriaStore.Service) t0 t1 limit s,
     failed (gw _ (CategoriaStore.svc_getRecent limit)) →
     let '(s', o) := call gw t0 t1 (CategoriaStore.getRecent limit) s in
     ∃ err, o = Finished (Thrown err)
       ∧ (∀ e, gw _ (CategoriaStore.svc_getRecent limit) = Rejected e →
               err = e)
       ∧ CategoriaStore.loading s' = false).
Proof.
  repeat apply conj.
  - intros e t0 t1 q s. by cbn.
  - intros gw t0 t1 query limit s Hmiss Hfail.
    unfold call, CategoriaStore.search. cbn. rewrite Hmiss. cbn.
    destruct (gw _ _) as [response|e]; cbn in *.
    + rewrite Hfail. cbn. eexists. by repeat split.
    + eexists. repeat split. by intros ? [= <-].
  - intros gw t0 t1 limit s Hfail.
    unfold call, CategoriaStore.getRecent. cbn.
    destruct (gw _ _) as [response|e]; cbn in *.
    + rewrite Hfail. cbn. eexists. by repeat split.
    + eexists. repeat split. by intros ? [= <-].
Qed.

Lemma read_failures_at_the_boundary_witness :
  let e := mkJsError (Some "Http failure response for /api/categorias: 0")
             (Some "Verifica tu conexión a internet.") None in
  let '(s', o) := call (rejecting e) 1 2 (CategoriaStore.search "foo" 10)
                    CategoriaStore.initialState in
  ∃ err, o = Finished (Thrown err)
    ∧ (∀ e', rejecting e _ (CategoriaStore.svc_search "foo" 10) = Rejected e' →
             err = e')
    ∧ CategoriaStore.error s' = message err
    ∧ CategoriaStore.loading s' = false.
Proof.
  intros e.
  exact (proj1 (proj2 read_failures_at_the_boundary) (rejecting e) 1%Z 2%Z
           "foo" 10%Z CategoriaStore.initialState eq_refl I).
Defined.

(** C8, as stated, fails: [search] throws the error of the Gateway to its
    caller after recording its message. *)
Lemma search_failure_rethrown :
  let e := mkJsError (Some "Http failure response for /api/categorias: 0")
             (Some "Verifica tu conexión a internet.") None in
  let '(s', o) := call (rejecting e) 1 2 (CategoriaStore.search "foo" 10)
                    CategoriaStore.initialState in
  o = Finished (Thrown e)
  ∧ CategoriaStore.error s'
    = Some "Http failure response for /api/categorias: 0".
Proof. by cbn. Qed.

(** [getRecent] of CategoriaStore throws as well, and never writes the error
    slot. *)
Example getRecent_failure_rethrown :
  let e := mkJsError (Some "Http failure response for /api/categorias: 0")
             (Some "Verifica tu conexión a internet.") None in
  let '(s', o) := call (rejecting e) 1 2 (CategoriaStore.getRecent 5)
                    CategoriaStore.initialState in
  o = Finished (Thrown e) ∧ CategoriaStore.error s' = None.
Proof. by cbn. Qed.

(** * Lifetime of the error slot *)

Lemma find_by_id_is_Some {T} (key : T → string) (l : list T) r :
  r ∈ l → is_Some (find (λ c, bool_decide (key c = key r)) l).
Proof.
  intros Hin. destruct (find _ l) as [r'|] eqn:Hf; [by eexists|].
  by destruct (find_by_id_None key _ _ Hf r Hin).
Qed.

Section CategoriaLoopFacts.
Context {lc : LocaleCompare}.
Import CategoriaLoop.

(** A promise is settled by one answer, and an answer after which it is
    fulfilled leaves the error slot as it finds it. *)
Lemma async_answer op t s gw t' s1 :
  is_async op = true →
  ∃ s' o, settle gw t' (run t (reaction op) s).2 s1 = (s', Finished o)
          ∧ (o = Returned tt → CategoriaStore.error s' = CategoriaStore.error s1).
Proof.
  destruct op as [query limit|nombre|limit|id p| |q|id]; intros Ha;
    try discriminate Ha; unfold reaction, void.
  - unfold CategoriaStore.search. cbn.
    destruct (CategoriaStore.searchCache s !! _) as [cached|]; cbn;
      [by eexists _, _|].
    destruct (gw _ _) as [[[] [found|] msg]|e]; cbn; by eexists _, _.
  - unfold CategoriaStore.create. cbn.
    destruct (gw _ _) as [[[] v msg]|e]; cbn; [|by eexists _, _..].
    destruct (bool_decide _); cbn; by eexists _, _.
  - unfold CategoriaStore.getRecent. cbn.
    destruct (gw _ _) as [[[] [v|] msg]|e]; cbn; by eexists _, _.
  - unfold CategoriaStore.update. cbn.
    destruct (find _ _) as [r|]; cbn;
      destruct (gw _ _) as [[[] v msg]|e]; cbn; by eexists _, _.
  - cbn. by eexists _, _.
Qed.

(** The answer to a delete ends its reaction, and a confirmation leaves
    the error slot as it finds it. *)
Lemma delete_answer t id s gw t' s1 :
  ∃ s', settle gw t' (run t (CategoriaStore.deleteCategoria id) s).2 s1
        = (s', Finished (Returned tt))
        ∧ (fulfils gw (run t (CategoriaStore.deleteCategoria id) s).2 →
           CategoriaStore.error s' = CategoriaStore.error s1).
Proof.
  unfold CategoriaStore.deleteCategoria. cbn.
  destruct (gw _ _) as [[]|e] eqn:Hgw; cbn.
  - by eexists.
  - destruct (find _ _) as [r|]; cbn; eexists; (split; [done|]);
      intros [r' Hr']; congruence.
Qed.

Lemma step_well_formed now ev w :
  well_formed w → well_formed (step now ev w).
Proof.
  intros Hw. pose proof Hw as [Hpromises Hdelete]. destruct ev as [op|[n| |] gw]; cbn.
  - destruct (run now (reaction op) (store w)) as [s p] eqn:Hrun.
    assert (Hp : p = (run now (reaction op) (store w)).2) by (by rewrite Hrun).
    assert (Hnew : ∀ task, pending_of p = Some task → task = p).
    { intros task. destruct p; cbn; congruence. }
    destruct op as [query limit|nombre|limit|id cat| |pq|id];
      (split; cbn; [intros n task Hn|intros task Htask]);
      try (by eapply Hpromises); try (by eapply Hdelete);
      try (apply lookup_app_Some in Hn as [Hn|[_ Hn]];
           [by eapply Hpromises|];
           apply list_lookup_singleton_Some in Hn as [_ Hn];
           apply Hnew in Hn as ->; eexists now, _, (store w);
           (split; [|exact Hp]); reflexivity).
    apply Hnew in Htask as ->. by eexists now, id, (store w).
  - destruct (promises w !! n) as [[p|]|] eqn:Hn; [|exact Hw..].
    destruct (Hpromises n p Hn) as (t & op & s & Ha & ->).
    destruct (async_answer op t s gw now (store w) Ha) as (s' & o & -> & _).
    split; cbn; [|exact Hdelete]. intros m q Hm.
    destruct (decide (n = m)) as [->|Hne].
    + rewrite list_lookup_insert_eq in Hm by (by eapply lookup_lt_Some).
      discriminate Hm.
    + rewrite list_lookup_insert_ne in Hm by done. by eapply Hpromises.
  - destruct (loadInner w) as [p|]; [|exact Hw].
    destruct (settle gw now p (store w)). by split.
  - destruct (deleteInner w) as [p|] eqn:Hd; [|exact Hw].
    destruct (Hdelete p eq_refl) as (t & id & s & ->).
    destruct (delete_answer t id s gw now (store w)) as (s' & -> & _).
    split; cbn; [exact Hpromises|]. intros q Hq. discriminate Hq.
Qed.

Lemma steps_well_formed evs w :
  well_formed w → well_formed (steps evs w).
Proof.
  revert w. induction evs as [|[now ev] evs IH]; intros w Hw; [done|].
  cbn. by apply IH, step_well_formed.
Qed.

Lemma start_well_formed s : well_formed (start s).
Proof. split; [by intros [|n] p|done]. Qed.

Lemma quiet_step_keeps_error now ev w :
  well_formed w → quiet now w ev →
  CategoriaStore.error (store (step now ev w)) = CategoriaStore.error (store w).
Proof.
  intros [Hpromises Hdelete] Hq. destruct ev as [op|[n| |] gw]; cbn in *.
  - destruct op as [query limit|nombre|limit|id p| |q|id]; try done.
    + destruct Hq as [cached Hhit]. unfold void, CategoriaStore.search. cbn.
      by rewrite Hhit.
    + unfold void, CategoriaStore.update. cbn.
      destruct (find _ _) as [r|] eqn:Hf; [|done].
      apply find_by_id_Some in Hf as [Hin Hk]. by destruct (Hq r Hin).
  - destruct (promises w !! n) as [[p|]|] eqn:Hn; [|done..].
    destruct (Hpromises n p Hn) as (t & op & s & Ha & ->).
    destruct Hq as [s' Hs'].
    destruct (async_answer op t s gw now (store w) Ha) as (s'' & o & Heq & Hkeep).
    rewrite Heq in Hs' |- *. injection Hs' as -> ->. cbn. by apply Hkeep.
  - by rewrite Hq.
  - destruct (deleteInner w) as [p|] eqn:Hd; [|done].
    destruct (Hdelete p eq_refl) as (t & id & s & ->).
    destruct (delete_answer t id s gw now (store w)) as (s' & Heq & Hkeep).
    rewrite Heq. cbn. by apply Hkeep.
Qed.

Lemma quiet_trace_keeps_error evs w :
  well_formed w → quiet_trace w evs →
  CategoriaStore.error (store (steps evs w)) = CategoriaStore.error (store w).
Proof.
  revert w. induction evs as [|[now ev] evs IH]; intros w Hw Hq; [done|].
  destruct Hq as [Hq Hrest]. cbn.
  rewrite IH by (by try apply step_well_formed).
  by apply quiet_step_keeps_error.
Qed.
End CategoriaLoopFacts.

(** C9, as amended. In CategoriaStore, at any point of any run of the event
    loop, the error slot keeps its content through every following event
    that is a call of [getRecent] or [deleteCategoria], a search that hits
    the cache, an update of an identifier absent from the collection, an
    answer after which a pending promise (of [search], [create],
    [getRecent] or [update]) is fulfilled, or the confirmation of a delete.
    It does not last until [clearError]: the slot is reset to [null] by
    [clearError] and, before the Gateway is called, by every paginated
    load, every create, every search that misses the cache and every update
    of a record of the collection; a paginated load that succeeds writes
    [null] again; and a paginated load or a delete that is rejected, and a
    create, an update or a search that throws, write their own message. *)
Theorem error_slot_lifetime :
  (∀ (lc : LocaleCompare) s0 before after,
     let w := CategoriaLoop.steps before (CategoriaLoop.start s0) in
     CategoriaLoop.quiet_trace w after →
     CategoriaStore.error (CategoriaLoop.store (CategoriaLoop.steps after w))
     = CategoriaStore.error (CategoriaLoop.store w))
  ∧ (∀ t s, CategoriaStore.error (fst (run t CategoriaStore.clearError s)) = None)
  ∧ (∀ t q s,
     CategoriaStore.error
       (fst (run t (CategoriaStore.loadCategoriasPaginated q) s)) = None)
  ∧ (∀ t nombre s,
     CategoriaStore.error (fst (run t (CategoriaStore.create nombre) s)) = None)
  ∧ (∀ t query limit s,
     CategoriaStore.searchCache s !! (query +:+ "_" +:+ pretty limit) = None →
     CategoriaStore.error
       (fst (run t (CategoriaStore.search query limit) s)) = None)
  ∧ (∀ t p s r,
     r ∈ CategoriaStore.categorias s →
     CategoriaStore.error
       (fst (run t (CategoriaStore.update (Categoria.id r) p) s)) = None)
  ∧ (∀ (gw : Gateway CategoriaStore.Service) t0 t1 q s s1 response,
     gw _ (CategoriaStore.svc_getCategorias q) = Fulfilled response →
     CategoriaStore.error
       (fst (settle gw t1
               (snd (run t0 (CategoriaStore.loadCategoriasPaginated q) s)) s1))
     = None)
  ∧ (∀ e t0 t1 q s s1,
     CategoriaStore.error
       (fst (settle (rejecting e) t1
               (snd (run t0 (CategoriaStore.loadCategoriasPaginated q) s)) s1))
     = Some (or_str (userMessage e) "Error al cargar categorías"))
  ∧ (∀ (lc : LocaleCompare) e t0 t1 id s s1,
     CategoriaStore.error
       (fst (settle (rejecting e) t1
               (snd (run t0 (CategoriaStore.deleteCategoria id) s)) s1))
     = Some (or_str (detail e) "Error al eliminar categoría"))
  ∧ (∀ (gw : Gateway CategoriaStore.Service) t0 t1 nombre s s1 s' err,
     settle gw t1 (snd (run t0 (CategoriaStore.create nombre) s)) s1
     = (s', Finished (Thrown err)) →
     CategoriaStore.error s' = message err)
  ∧ (∀ (gw : Gateway CategoriaStore.Service) t0 t1 id p s s1 s' err,
     settle gw t1 (snd (run t0 (CategoriaStore.update id p) s)) s1
     = (s', Finished (Thrown err)) →
     CategoriaStore.error s' = message err)
  ∧ (∀ (gw : Gateway CategoriaStore.Service) t0 t1 query limit s s1 s' err,
     settle gw t1 (snd (run t0 (CategoriaStore.search query limit) s)) s1
     = (s', Finished (Thrown err)) →
     CategoriaStore.error s' = message err).
Proof.
  repeat apply conj.
  - intros lc s0 before after w Hquiet.
    apply quiet_trace_keeps_error; [|done].
    apply steps_well_formed, start_well_formed.
  - done.
  - done.
  - done.
  - intros t query limit s Hmiss. unfold CategoriaStore.search. cbn.
    by rewrite Hmiss.
  - intros t p s r Hin. unfold CategoriaStore.update. cbn.
    by destruct (find_by_id_is_Some Categoria.id _ r Hin) as [r' ->].
  - intros gw t0 t1 q s s1 response Hgw. cbn. by rewrite Hgw.
  - done.
  - intros lc e t0 t1 id s s1. unfold CategoriaStore.deleteCategoria. cbn.
    by destruct (find _ _).
  - intros gw t0 t1 nombre s s1 s' err. unfold CategoriaStore.create. cbn.
    destruct (gw _ _) as [[[] v msg]|e]; cbn.
    + destruct (bool_decide _); cbn; [discriminate|]. by intros [= <- <-].
    + by intros [= <- <-].
    + by intros [= <- <-].
  - intros gw t0 t1 id p s s1 s' err. unfold CategoriaStore.update. cbn.
    destruct (find _ _) as [r|]; cbn;
      destruct (gw _ _) as [[[] v msg]|e]; cbn;
      first [discriminate | by intros [= <- <-]].
  - intros gw t0 t1 query limit s s1 s' err.
    unfold CategoriaStore.search. cbn.
    destruct (CategoriaStore.searchCache s !! _) as [cached|]; cbn;
      [discriminate|].
    destruct (gw _ _) as [[[] [found|] msg]|e]; cbn;
      first [discriminate | by intros [= <- <-]].
Qed.

Lemma error_slot_lifetime_witness :
  let cat := Categoria.mk "cat-1" "foo" "" 0 "" in
  let s := CategoriaStore.set_error (Some "Error al crear categoría")
             (CategoriaStore.set_categorias [cat] CategoriaStore.initialState) in
  let after :=
    [(1%Z, CategoriaLoop.Invoke (CategoriaLoop.OpGetRecent 5));
     (2%Z, CategoriaLoop.Invoke (CategoriaLoop.OpDelete "cat-1"));
     (3%Z, CategoriaLoop.Answer (CategoriaLoop.Promise 0) (categoria_found [cat]));
     (4%Z, CategoriaLoop.Answer CategoriaLoop.DeleteRequest (categoria_found []))] in
  let w := CategoriaLoop.steps (H:=codeUnitCompare) after
             (CategoriaLoop.start s) in
  CategoriaStore.categorias (CategoriaLoop.store w) = []
  ∧ CategoriaStore.error (CategoriaLoop.store w)
    = Some "Error al crear categoría".
Proof.
  intros cat s after w. split; [reflexivity|].
  refine (proj1 error_slot_lifetime codeUnitCompare s [] after _).
  cbn. repeat split.
  - by eexists.
  - by eexists.
Defined.

(** C9, as stated, fails: a paginated load that succeeds leaves the error
    slot empty although [clearError] was never called; the slot is already
    empty when the request is dispatched. *)
Lemma error_cleared_by_load :
  let s := CategoriaStore.set_error (Some "Error al crear categoría")
             CategoriaStore.initialState in
  let q := mkPageQuery 1 10 None None None in
  let pg := mkPaged [Categoria.mk "7" "foo" "" 0 ""] 1 in
  CategoriaStore.error s = Some "Error al crear categoría"
  ∧ CategoriaStore.error
      (fst (run 1 (CategoriaStore.loadCategoriasPaginated q) s)) = None
  ∧ call (categoria_page pg) 1 2 (CategoriaStore.loadCategoriasPaginated q) s
    = (CategoriaStore.mkState (items pg) 1 false None (Some 2%Z) ∅,
       Finished (Returned tt)).
Proof. by cbn. Qed.

(** The slot does not last through a failure either: a delete that the
    Gateway rejects replaces the message by its own. *)
Example error_overwritten_by_rejected_delete :
  let s := CategoriaStore.set_error (Some "Error al crear categoría")
             CategoriaStore.initialState in
  CategoriaStore.error
    (fst (call (rejecting (mkJsError None None (Some "En uso"))) 1 2
            (CategoriaStore.deleteCategoria (H:=codeUnitCompare) "cat-1") s))
  = Some "En uso".
Proof. reflexivity. Qed.

(** * Temporary identifiers *)

Lemma temp_id_inj : Inj (=) (=) temp_id.
Proof.
  intros t1 t2 Heq. unfold temp_id in Heq. cbn in Heq.
  injection Heq as Heq. by apply (inj pretty).
Qed.

(** C10. The temporary identifier is ["temp_"] followed by the clock reading
    in milliseconds: it is the identifier of the record that the creates of
    CategoriaStore, GastosStore and TraspasosStore have put into the
    collection when the request is dispatched. Two creates started at
    different clock readings get different temporary identifiers, and two
    creates started at the same clock reading get the same one. *)
Theorem temp_id_of_clock :
  (∀ now nombre s,
     Categoria.id <$>
       last (CategoriaStore.categorias
               (fst (run now (CategoriaStore.create nombre) s)))
     = Some ("temp_" +:+ pretty now))
  ∧ (∀ now sib gasto s,
     Gasto.id <$>
       head (GastosStore.gastos
               (fst (run now (GastosStore.createGasto sib gasto) s)))
     = Some ("temp_" +:+ pretty now))
  ∧ (∀ now traspaso s,
     Traspaso.id <$>
       head (TraspasosStore.traspasos
               (fst (run now (TraspasosStore.createTraspaso traspaso) s)))
     = Some ("temp_" +:+ pretty now))
  ∧ (∀ t1 t2 : Z, t1 ≠ t2 → temp_id t1 ≠ temp_id t2)
  ∧ (∀ t1 t2 : Z, t1 = t2 → temp_id t1 = temp_id t2).
Proof.
  repeat apply conj.
  - intros now nombre s. cbn. by rewrite last_snoc.
  - done.
  - done.
  - intros t1 t2 Hne Heq. by apply Hne, temp_id_inj.
  - by intros t1 t2 ->.
Qed.

Lemma temp_id_of_clock_witness :
  temp_id 1700000000000 ≠ temp_id 1700000000001
  ∧ temp_id 1700000000000 = temp_id (1699999999999 + 1).
Proof.
  destruct temp_id_of_clock as (_ & _ & _ & Hdistinct & Hsame).
  split.
  - apply Hdistinct. discriminate.
  - apply Hsame. reflexivity.
Defined.

Example temp_id_example : temp_id 1700000000000 = "temp_1700000000000".
Proof. reflexivity. Qed.

(** * The search cache *)

(** The decimal printing of a number holds no underscore. *)
Lemma pretty_N_go_no_underscore x s :
  (∀ a b, s ≠ a +:+ String "_"%char b) →
  ∀ a b, pretty_N_go x s ≠ a +:+ String "_"%char b.
Proof.
  revert s. induction (N.lt_wf_0 x) as [x _ IH]; intros s Hs.
  assert (x = 0 ∨ 0 < x)%N as [->|Hpos] by lia.
  - by rewrite pretty_N_go_0.
  - rewrite pretty_N_go_step by done. apply IH; [by apply N.div_lt|].
    intros [|c a] b; cbn.
    + unfold pretty_N_char. by repeat case_match.
    + intros [= _ Heq]. by eapply Hs.
Qed.

Lemma pretty_Z_no_underscore (l : Z) a b : pretty l ≠ a +:+ String "_"%char b.
Proof.
  assert (Hempty : ∀ a b, "" ≠ a +:+ String "_"%char b) by (by intros [|??] ?).
  assert (Hzero : ∀ a b, "0" ≠ a +:+ String "_"%char b).
  { intros [|c [|??]] ?; cbn; discriminate. }
  assert (Hpos : ∀ p a b, pretty (N.pos p) ≠ a +:+ String "_"%char b).
  { intros p a' b'. unfold pretty, pretty_N. case_decide; [done|].
    by apply pretty_N_go_no_underscore. }
  destruct l as [|p|p]; cbn; [apply Hzero|apply Hpos|].
  destruct a as [|c a]; cbn; [discriminate|].
  intros [= _ Heq]. by eapply Hpos.
Qed.

(** A key [`${query}_${limit}`] is cut at its last underscore. *)
Lemma cache_key_eq q1 q2 (l1 l2 : Z) :
  q1 +:+ "_" +:+ pretty l1 = q2 +:+ "_" +:+ pretty l2 → q1 = q2 ∧ l1 = l2.
Proof.
  change (q1 +:+ String "_"%char (pretty l1) = q2 +:+ String "_"%char (pretty l2)
          → q1 = q2 ∧ l1 = l2).
  revert q2. induction q1 as [|c q1 IH]; intros [|c' q2]; cbn.
  - intros [= Heq]. split; [done|]. by apply (inj pretty).
  - intros [= _ Heq]. by destruct (pretty_Z_no_underscore l1 q2 (pretty l2)).
  - intros [= _ Heq]. by destruct (pretty_Z_no_underscore l2 q1 (pretty l1)).
  - intros [= -> Heq]. by destruct (IH _ Heq) as [-> ->].
Qed.

(** X2. Two searches use the same cache key only when they have the same
    query and the same limit: an underscore inside the query cannot make
    [`${query}_${limit}`] collide. *)
Theorem search_cache_key_inj (q1 q2 : string) (l1 l2 : Z) :
  cacheKey q1 l1 = cacheKey q2 l2 ↔ q1 = q2 ∧ l1 = l2.
Proof. split; [apply cache_key_eq | by intros [-> ->]]. Qed.

Lemma search_cache_key_inj_witness :
  cacheKey "a_1" 0 ≠ cacheKey "a" 10
  ∧ cacheKey "a" 10 = cacheKey "a" (5 + 5).
Proof.
  split.
  - intros Heq. apply (proj1 (search_cache_key_inj "a_1" "a" 0 10)) in Heq.
    destruct Heq as [Hq _]. discriminate Hq.
  - apply (proj2 (search_cache_key_inj "a" "a" 10 (5 + 5))). by split.
Defined.

(** X1. A search of CategoriaStore that misses the cache and succeeds
    returns the list of the Gateway and stores it under its key: the same
    search called again returns that list without a request and without
    touching the store, and the entries of all other searches are as
    before. *)
Theorem search_cache_round_trip
    (gw : Gateway CategoriaStore.Service) t0 t1 t2 query limit s response
    categorias :
  CategoriaStore.searchCache s !! (query +:+ "_" +:+ pretty limit) = None →
  gw _ (CategoriaStore.svc_search query limit) = Fulfilled response →
  isSuccess response = true →
  value response = Some categorias →
  let '(s1, o) := call gw t0 t1 (CategoriaStore.search query limit) s in
  o = Finished (Returned categorias)
  ∧ run t2 (CategoriaStore.search query limit) s1
    = (s1, Finished (Returned categorias))
  ∧ ∀ query' limit',
      (query', limit') ≠ (query, limit) →
      CategoriaStore.searchCache s1 !! (query' +:+ "_" +:+ pretty limit')
      = CategoriaStore.searchCache s !! (query' +:+ "_" +:+ pretty limit').
Proof.
  intros Hmiss Hgw Hok Hval.
  unfold call, CategoriaStore.search. cbn. rewrite Hmiss. cbn.
  rewrite Hgw. cbn. rewrite Hok, Hval. cbn.
  rewrite lookup_insert_eq. split; [done|]. split; [done|].
  intros query' limit' Hne. apply lookup_insert_ne.
  intros Heq. apply cache_key_eq in Heq as [-> ->]. by apply Hne.
Qed.

Lemma search_cache_round_trip_witness :
  let found := [Categoria.mk "7" "foo" "" 0 ""] in
  let gw : Gateway CategoriaStore.Service := λ R c,
    match c in CategoriaStore.Service R return Settled R with
    | CategoriaStore.svc_search _ _ =>
        Fulfilled (mkResult true (Some found) None)
    | _ => Rejected (new_Error "unexpected request")
    end in
  let '(s1, o) := call gw 1 2 (CategoriaStore.search "foo" 10)
                    CategoriaStore.initialState in
  o = Finished (Returned found)
  ∧ run 3 (CategoriaStore.search "foo" 10) s1
    = (s1, Finished (Returned found))
  ∧ ∀ query' limit',
      (query', limit') ≠ ("foo", 10%Z) →
      CategoriaStore.searchCache s1 !! (query' +:+ "_" +:+ pretty limit')
      = CategoriaStore.searchCache CategoriaStore.initialState
          !! (query' +:+ "_" +:+ pretty limit').
Proof.
  intros found gw.
  exact (search_cache_round_trip gw 1 2 3 "foo" 10
           CategoriaStore.initialState (mkResult true (Some found) None) found
           eq_refl eq_refl eq_refl eq_refl).
Defined.

(** X3. Whatever the Gateway answers, a search of CategoriaStore leaves the
    collection and the total count as they are, and the cache is either
    untouched or extended by the entry of this search. *)
Theorem search_leaves_collection
    (gw : Gateway CategoriaStore.Service) t0 t1 query limit s :
  let s' := fst (call gw t0 t1 (CategoriaStore.search query limit) s) in
  CategoriaStore.categorias s' = CategoriaStore.categorias s
  ∧ CategoriaStore.totalRecords s' = CategoriaStore.totalRecords s
  ∧ (CategoriaStore.searchCache s' = CategoriaStore.searchCache s
     ∨ ∃ found,
         CategoriaStore.searchCache s'
         = <[query +:+ "_" +:+ pretty limit := found]>
             (CategoriaStore.searchCache s)).
Proof.
  unfold call, CategoriaStore.search. cbn.
  destruct (CategoriaStore.searchCache s !! _) as [cached|]; cbn; [by auto|].
  destruct (gw _ _) as [[ok val msg]|e]; cbn; [|by auto].
  destruct ok; cbn; [|by auto]. destruct val as [found|]; cbn; [|by auto].
  repeat split. right. by exists found.
Qed.

(** X4. A search of ClienteStore that misses the cache and succeeds replaces
    the collection of the store by the list it found (the total count stays
    as it was) and caches the list; the same search called again is served
    from the cache and leaves the store, whatever its collection then is,
    unchanged. *)
Theorem cliente_search_replaces_collection
    (gw : Gateway ClienteQueries.Service) t0 t1 query limit s response v :
  ClienteStore.searchCache s !! (query +:+ "_" +:+ pretty limit) = None →
  gw _ (ClienteQueries.svc_search query limit) = Fulfilled response →
  isSuccess response = true →
  value response = Some v →
  let '(s1, o) := call gw t0 t1 (ClienteQueries.search query limit) s in
  o = Finished (Returned (recent_items v))
  ∧ ClienteStore.clientes s1 = recent_items v
  ∧ ClienteStore.totalRecords s1 = ClienteStore.totalRecords s
  ∧ ∀ t2 other,
      run t2 (ClienteQueries.search query limit)
        (ClienteStore.set_clientes other s1)
      = (ClienteStore.set_clientes other s1,
         Finished (Returned (recent_items v))).
Proof.
  intros Hmiss Hgw Hok Hval.
  unfold call, ClienteQueries.search. cbn. rewrite Hmiss. cbn.
  rewrite Hgw. cbn. rewrite Hok, Hval. cbn.
  repeat split. intros t2 other. by rewrite lookup_insert_eq.
Qed.

Lemma cliente_search_replaces_collection_witness :
  let found := [Cliente.mk "7" "Ana" 0 ""] in
  let s := ClienteStore.set_totalRecords 40
             (ClienteStore.set_clientes [Cliente.mk "1" "Zoe" 0 ""]
                ClienteStore.initialState) in
  let gw : Gateway ClienteQueries.Service := λ R c,
    match c in ClienteQueries.Service R return Settled R with
    | ClienteQueries.svc_search _ _ =>
        Fulfilled (mkResult true (Some (RecentArray found)) None)
    | _ => Rejected (new_Error "unexpected request")
    end in
  let '(s1, o) := call gw 1 2 (ClienteQueries.search "an" 10) s in
  o = Finished (Returned found)
  ∧ ClienteStore.clientes s1 = found
  ∧ ClienteStore.totalRecords s1 = 40%Z
  ∧ ∀ t2 other,
      run t2 (ClienteQueries.search "an" 10)
        (ClienteStore.set_clientes other s1)
      = (ClienteStore.set_clientes other s1, Finished (Returned found)).
Proof.
  intros found s gw.
  exact (cliente_search_replaces_collection gw 1 2 "an" 10 s
           (mkResult true (Some (RecentArray found)) None) (RecentArray found)
           eq_refl eq_refl eq_refl eq_refl).
Defined.

(** * Failed and degenerate creates *)

(** The Gateway call of [CategoriaStore.create] has failed: rejected, or an
    envelope without success or without a truthy identifier. *)
Lemma categoria_create_failure
    (gw : Gateway CategoriaStore.Service) t0 t1 nombre s err :
  match gw _ (CategoriaStore.svc_create nombre) with
  | Rejected e => err = e
  | Fulfilled response =>
      (isSuccess response = false ∨ value response = "")
      ∧ err = new_Error (or_str (error_message response)
                           "Error al crear categoría")
  end →
  call gw t0 t1 (CategoriaStore.create nombre) s
  = (CategoriaStore.set_categorias
       (filter (λ c, Categoria.id c ≠ temp_id t0)
          (CategoriaStore.categorias s
             ++ [Categoria.mk (temp_id t0) nombre "" t0 ""]))
       (CategoriaStore.set_loading false
          (CategoriaStore.set_error (message err) s)),
     Finished (Thrown err)).
Proof.
  unfold call, CategoriaStore.create. cbn.
  destruct (gw _ _) as [response|e]; cbn; [|by intros ->].
  intros [[Hfail|Hempty] ->].
  - by rewrite Hfail.
  - rewrite Hempty. rewrite bool_decide_false by (by intros []).
    by rewrite andb_false_r.
Qed.

(** X5. [CategoriaStore.create] treats an envelope that reports success but
    carries an empty identifier as a failure: the temporary record is taken
    out again, the message of the envelope (or the fallback) is recorded,
    and an [Error] with that message is thrown to the caller. When no other
    record carried the temporary identifier the collection is the one before
    the call. *)
Theorem create_empty_id_is_failure
    (gw : Gateway CategoriaStore.Service) t0 t1 nombre s msg :
  gw _ (CategoriaStore.svc_create nombre) = Fulfilled (mkResult true "" msg) →
  (∀ c, c ∈ CategoriaStore.categorias s → Categoria.id c ≠ temp_id t0) →
  let '(s', o) := call gw t0 t1 (CategoriaStore.create nombre) s in
  o = Finished (Thrown (new_Error (or_str msg "Error al crear categoría")))
  ∧ CategoriaStore.categorias s' = CategoriaStore.categorias s
  ∧ CategoriaStore.error s' = Some (or_str msg "Error al crear categoría")
  ∧ CategoriaStore.loading s' = false
  ∧ CategoriaStore.searchCache s' = CategoriaStore.searchCache s.
Proof.
  intros Hgw Hfresh.
  rewrite (categoria_create_failure gw t0 t1 nombre s
             (new_Error (or_str msg "Error al crear categoría")))
    by (rewrite Hgw; cbn; auto).
  cbn. repeat split.
  rewrite filter_app, (filter_fresh Categoria.id) by done.
  rewrite filter_cons_False by (by intros []). by rewrite app_nil_r.
Qed.

Lemma create_empty_id_is_failure_witness :
  let s := CategoriaStore.set_categorias [Categoria.mk "7" "x" "" 0 ""]
             CategoriaStore.initialState in
  let '(s', o) := call (categoria_created "") 5 9
                    (CategoriaStore.create "a") s in
  o = Finished (Thrown (new_Error "Error al crear categoría"))
  ∧ CategoriaStore.categorias s' = CategoriaStore.categorias s
  ∧ CategoriaStore.error s' = Some "Error al crear categoría"
  ∧ CategoriaStore.loading s' = false
  ∧ CategoriaStore.searchCache s' = CategoriaStore.searchCache s.
Proof.
  intros s.
  refine (create_empty_id_is_failure (categoria_created "") 5 9 "a" s None
            eq_refl _).
  intros c Hc. cbn in Hc. apply list_elem_of_singleton in Hc as ->.
  intros Heq; vm_compute in Heq; discriminate Heq.
Defined.

(** X6. A create of GastosStore or TraspasosStore that the Gateway rejects
    is undone exactly when no other record carries the temporary identifier:
    the store is the one before the call except for the in-flight flag
    (off) and the error slot (the [userMessage] of the error or the
    fallback), and the error is thrown to the caller. *)
Theorem create_rejected_restores_store :
  (∀ e t0 t1 sib gasto s,
     (∀ g, g ∈ GastosStore.gastos s → Gasto.id g ≠ temp_id t0) →
     call (rejecting e) t0 t1 (GastosStore.createGasto sib gasto) s
     = (GastosStore.set_loading false
          (GastosStore.set_error
             (Some (or_str (userMessage e) "Error al crear gasto")) s),
        Finished (Thrown e)))
  ∧ (∀ e t0 t1 traspaso s,
     (∀ x, x ∈ TraspasosStore.traspasos s → Traspaso.id x ≠ temp_id t0) →
     call (rejecting e) t0 t1 (TraspasosStore.createTraspaso traspaso) s
     = (TraspasosStore.set_loading false
          (TraspasosStore.set_error
             (Some (or_str (userMessage e) "Error al crear traspaso")) s),
        Finished (Thrown e))).
Proof.
  split.
  - intros e t0 t1 sib gasto s Hfresh.
    unfold call, GastosStore.createGasto. cbn.
    rewrite decide_False by (intros Hne; by apply Hne).
    rewrite (filter_fresh Gasto.id) by done.
    replace (GastosStore.totalRecords s + 1 - 1)%Z
      with (GastosStore.totalRecords s) by lia.
    by destruct s.
  - intros e t0 t1 traspaso s Hfresh.
    unfold call, TraspasosStore.createTraspaso. cbn.
    rewrite decide_False by (intros Hne; by apply Hne).
    rewrite (filter_fresh Traspaso.id) by done.
    replace (TraspasosStore.totalRecords s + 1 - 1)%Z
      with (TraspasosStore.totalRecords s) by lia.
    by destruct s.
Qed.

Lemma create_rejected_restores_store_witness :
  let s := TraspasosStore.set_totalRecords 1
             (TraspasosStore.set_traspasos
                [Traspaso.mk "t-1" "a" "A" "b" "B" "2025-01-31" 50 None "u"]
                TraspasosStore.initialState) in
  let e := mkJsError (Some "Http failure") (Some "Sin conexión") None in
  call (rejecting e) 5 9
    (TraspasosStore.createTraspaso
       (TraspasoCreate.mk "a" "b" "2025-02-01" 20 None)) s
  = (TraspasosStore.set_error (Some "Sin conexión") s, Finished (Thrown e)).
Proof.
  intros s e.
  refine (proj2 create_rejected_restores_store e 5%Z 9%Z
            (TraspasoCreate.mk "a" "b" "2025-02-01" 20 None) s _).
  intros x Hx. cbn in Hx. apply list_elem_of_singleton in Hx as ->.
  intros Heq; vm_compute in Heq; discriminate Heq.
Defined.

(** * Updates *)

(** X7. An update of CategoriaStore that the Gateway confirms keeps the
    optimistic merge: the method returns the value of the envelope, the
    collection has the same length, the records with another identifier are
    where and what they were, and every record with the identifier is the
    merge of the old one with the partial update. *)
Theorem update_confirmed_keeps_merge
    (gw : Gateway CategoriaStore.Service) t0 t1 id p s response :
  gw _ (CategoriaStore.svc_update id p) = Fulfilled response →
  isSuccess response = true →
  let '(s', o) := call gw t0 t1 (CategoriaStore.update id p) s in
  o = Finished (Returned (value response))
  ∧ length (CategoriaStore.categorias s')
    = length (CategoriaStore.categorias s)
  ∧ ∀ n c, CategoriaStore.categorias s !! n = Some c →
      CategoriaStore.categorias s' !! n
      = Some (if decide (Categoria.id c = id) then Categoria.merge c p else c).
Proof.
  intros Hgw Hok. unfold call, CategoriaStore.update. cbn.
  destruct (find _ _) as [r|] eqn:Hf; cbn; rewrite Hgw; cbn; rewrite Hok; cbn.
  - split; [done|]. split; [by rewrite length_fmap|].
    intros n c Hn. by rewrite list_lookup_fmap, Hn.
  - split; [done|]. split; [done|].
    intros n c Hn. rewrite Hn. f_equal.
    rewrite decide_False; [done|].
    eapply find_by_id_None; [done|]. by eapply list_elem_of_lookup_2.
Qed.

Lemma update_confirmed_keeps_merge_witness :
  let s := CategoriaStore.set_categorias
             [Categoria.mk "a" "x" "" 0 ""; Categoria.mk "b" "y" "" 0 ""]
             CategoriaStore.initialState in
  let p := Categoria.mkPartial None (Some "z") None None None in
  let gw : Gateway CategoriaStore.Service := λ R c,
    match c in CategoriaStore.Service R return Settled R with
    | CategoriaStore.svc_update id _ => Fulfilled (mkResult true id None)
    | _ => Rejected (new_Error "unexpected request")
    end in
  let '(s', o) := call gw 1 2 (CategoriaStore.update "b" p) s in
  o = Finished (Returned "b")
  ∧ length (CategoriaStore.categorias s') = 2%nat
  ∧ ∀ n c, CategoriaStore.categorias s !! n = Some c →
      CategoriaStore.categorias s' !! n
      = Some (if decide (Categoria.id c = "b") then Categoria.merge c p else c).
Proof.
  intros s p gw.
  exact (update_confirmed_keeps_merge gw 1 2 "b" p s (mkResult true "b" None)
           eq_refl eq_refl).
Defined.

(** X8. An update for an identifier that no record of the collection
    carries still calls the Gateway, and whatever the Gateway answers the
    collection is left as it is. In CategoriaStore, GastosStore and
    TraspasosStore. *)
Theorem update_absent_id_keeps_collection :
  (∀ (gw : Gateway CategoriaStore.Service) t0 t1 id p s,
     (∀ c, c ∈ CategoriaStore.categorias s → Categoria.id c ≠ id) →
     dispatched (snd (run t0 (CategoriaStore.update id p) s))
       (CategoriaStore.svc_update id p)
     ∧ CategoriaStore.categorias
         (fst (call gw t0 t1 (CategoriaStore.update id p) s))
       = CategoriaStore.categorias s)
  ∧ (∀ (gw : Gateway GastosOps.Service) t0 t1 id p s,
     (∀ g, g ∈ GastosStore.gastos s → Gasto.id g ≠ id) →
     dispatched (snd (run t0 (GastosOps.updateGasto id p) s))
       (GastosOps.svc_update id p)
     ∧ GastosStore.gastos (fst (call gw t0 t1 (GastosOps.updateGasto id p) s))
       = GastosStore.gastos s)
  ∧ (∀ (gw : Gateway TraspasosOps.Service) t0 t1 id p s,
     (∀ x, x ∈ TraspasosStore.traspasos s → Traspaso.id x ≠ id) →
     dispatched (snd (run t0 (TraspasosOps.updateTraspaso id p) s))
       (TraspasosOps.svc_update id p)
     ∧ TraspasosStore.traspasos
         (fst (call gw t0 t1 (TraspasosOps.updateTraspaso id p) s))
       = TraspasosStore.traspasos s).
Proof.
  repeat apply conj.
  - intros gw t0 t1 id p s Habsent. unfold call, CategoriaStore.update. cbn.
    destruct (find _ _) as [r|] eqn:Hf.
    { apply find_by_id_Some in Hf as [Hin Hk]. by destruct (Habsent r Hin). }
    cbn. split; [by eexists|].
    destruct (gw _ _) as [response|e]; cbn; [|done].
    by destruct (isSuccess response).
  - intros gw t0 t1 id p s Habsent. unfold call, GastosOps.updateGasto. cbn.
    change (list_fmap Gasto.t Gasto.t ?f ?l) with (f <$> l).
    rewrite (modify_fresh Gasto.id id (λ g, GastoPartial.merge g p)) by done.
    destruct (find _ _) as [r|] eqn:Hf.
    { apply find_by_id_Some in Hf as [Hin Hk]. by destruct (Habsent r Hin). }
    split; [by eexists|]. by destruct (gw _ _).
  - intros gw t0 t1 id p s Habsent.
    unfold call, TraspasosOps.updateTraspaso. cbn.
    change (list_fmap Traspaso.t Traspaso.t ?f ?l) with (f <$> l).
    rewrite (modify_fresh Traspaso.id id (λ x, TraspasoPartial.merge x p))
      by done.
    destruct (find _ _) as [r|] eqn:Hf.
    { apply find_by_id_Some in Hf as [Hin Hk]. by destruct (Habsent r Hin). }
    split; [by eexists|]. by destruct (gw _ _).
Qed.

Lemma update_absent_id_keeps_collection_witness :
  let s := CategoriaStore.set_categorias [Categoria.mk "a" "x" "" 0 ""]
             CategoriaStore.initialState in
  let p := Categoria.mkPartial None (Some "z") None None None in
  dispatched (snd (run 1 (CategoriaStore.update "nope" p) s))
    (CategoriaStore.svc_update "nope" p)
  ∧ CategoriaStore.categorias
      (fst (call (rejecting (new_Error "404")) 1 2
              (CategoriaStore.update "nope" p) s))
    = CategoriaStore.categorias s.
Proof.
  intros s p.
  refine (proj1 update_absent_id_keeps_collection
            (rejecting (new_Error "404")) 1%Z 2%Z "nope" p s _).
  intros c Hc. cbn in Hc. apply list_elem_of_singleton in Hc as ->.
  discriminate.
Defined.

Lemma gasto_merge_id g p :
  keeps_id (Gasto.id g) (GastoPartial.id p) →
  Gasto.id (GastoPartial.merge g p) = Gasto.id g.
Proof. by intros [Hp|Hp]; cbn; rewrite Hp. Qed.

Lemma traspaso_merge_id x p :
  keeps_id (Traspaso.id x) (TraspasoPartial.id p) →
  Traspaso.id (TraspasoPartial.merge x p) = Traspaso.id x.
Proof. by intros [Hp|Hp]; cbn; rewrite Hp. Qed.

(** X9. [updateGasto] and [updateTraspaso] undo a rejected update exactly:
    for a record that is the only one with its identifier and a partial
    update that keeps the identifier, the store after the failure is the one
    before the call except for the in-flight flag (off) and the error slot
    (the [userMessage] of the error or the fallback), and the error is
    thrown to the caller. *)
Theorem update_rejected_restores_store :
  (∀ e t0 t1 s r p,
     r ∈ GastosStore.gastos s →
     only_with_its_id Gasto.id (GastosStore.gastos s) r →
     keeps_id (Gasto.id r) (GastoPartial.id p) →
     call (rejecting e) t0 t1 (GastosOps.updateGasto (Gasto.id r) p) s
     = (GastosStore.set_loading false
          (GastosStore.set_error
             (Some (or_str (userMessage e) "Error al actualizar gasto")) s),
        Finished (Thrown e)))
  ∧ (∀ e t0 t1 s r p,
     r ∈ TraspasosStore.traspasos s →
     only_with_its_id Traspaso.id (TraspasosStore.traspasos s) r →
     keeps_id (Traspaso.id r) (TraspasoPartial.id p) →
     call (rejecting e) t0 t1
       (TraspasosOps.updateTraspaso (Traspaso.id r) p) s
     = (TraspasosStore.set_loading false
          (TraspasosStore.set_error
             (Some (or_str (userMessage e) "Error al actualizar traspaso")) s),
        Finished (Thrown e))).
Proof.
  split.
  - intros e t0 t1 s r p Hin Honly Hp.
    pose proof (find_by_id_only Gasto.id _ r Hin Honly) as Hf.
    assert (Hrestore := restore_after_merge Gasto.id r
                          (λ g, GastoPartial.merge g p) _ Honly).
    unfold call, GastosOps.updateGasto. cbn. rewrite Hf. cbn.
    change (list_fmap Gasto.t Gasto.t ?f ?l) with (f <$> l).
    change (list_fmap Gasto.t Gasto.t ?f ?l) with (f <$> l).
    rewrite Hrestore; [by destruct s|].
    intros g Hg. change (Gasto.id (GastoPartial.merge g p) = Gasto.id r).
    rewrite gasto_merge_id; [done | by rewrite Hg].
  - intros e t0 t1 s r p Hin Honly Hp.
    pose proof (find_by_id_only Traspaso.id _ r Hin Honly) as Hf.
    assert (Hrestore := restore_after_merge Traspaso.id r
                          (λ x, TraspasoPartial.merge x p) _ Honly).
    unfold call, TraspasosOps.updateTraspaso. cbn. rewrite Hf. cbn.
    change (list_fmap Traspaso.t Traspaso.t ?f ?l) with (f <$> l).
    change (list_fmap Traspaso.t Traspaso.t ?f ?l) with (f <$> l).
    rewrite Hrestore; [by destruct s|].
    intros x Hx. change (Traspaso.id (TraspasoPartial.merge x p) = Traspaso.id r).
    rewrite traspaso_merge_id; [done | by rewrite Hx].
Qed.

Lemma update_rejected_restores_store_witness :
  let r := Traspaso.mk "t-1" "a" "A" "b" "B" "2025-01-31" 50 None "u" in
  let s := TraspasosStore.set_totalRecords 1
             (TraspasosStore.set_traspasos [r] TraspasosStore.initialState) in
  let p := TraspasoPartial.mk None None None None None None (Some 75%Z)
             None None in
  let e := mkJsError (Some "Http failure") None None in
  call (rejecting e) 1 2 (TraspasosOps.updateTraspaso "t-1" p) s
  = (TraspasosStore.set_error (Some "Error al actualizar traspaso") s,
     Finished (Thrown e)).
Proof.
  intros r s p e.
  refine (proj2 update_rejected_restores_store e 1%Z 2%Z s r p _ _ _).
  - cbn. left.
  - intros x Hx _. cbn in Hx. by apply list_elem_of_singleton in Hx.
  - by left.
Defined.

(** * Deletes *)

(** X10. A delete for an identifier that no record of the collection
    carries leaves the collection as it is but still takes one off the total
    count, and the count stays one short whether the Gateway then confirms
    or rejects the delete: with nothing captured, the error callbacks of
    [deleteCliente] and [deleteTraspaso] restore nothing. *)
Theorem delete_absent_id_decrements_count :
  (∀ (lc : LocaleCompare) (gw : Gateway ClienteStore.Service) t0 t1 id s,
     (∀ c, c ∈ ClienteStore.clientes s → Cliente.id c ≠ id) →
     let s' := fst (call gw t0 t1 (ClienteStore.deleteCliente id) s) in
     ClienteStore.clientes s' = ClienteStore.clientes s
     ∧ ClienteStore.totalRecords s' = (ClienteStore.totalRecords s - 1)%Z)
  ∧ (∀ (gw : Gateway TraspasosOps.Service) t0 t1 id s,
     (∀ x, x ∈ TraspasosStore.traspasos s → Traspaso.id x ≠ id) →
     let s' := fst (call gw t0 t1 (TraspasosOps.deleteTraspaso id) s) in
     TraspasosStore.traspasos s' = TraspasosStore.traspasos s
     ∧ TraspasosStore.totalRecords s'
       = (TraspasosStore.totalRecords s - 1)%Z).
Proof.
  split.
  - intros lc gw t0 t1 id s Habsent.
    unfold call, ClienteStore.deleteCliente. cbn.
    destruct (find _ _) as [r|] eqn:Hf.
    { apply find_by_id_Some in Hf as [Hin Hk]. by destruct (Habsent r Hin). }
    rewrite (filter_fresh Cliente.id) by done.
    by destruct (gw _ _).
  - intros gw t0 t1 id s Habsent.
    unfold call, TraspasosOps.deleteTraspaso. cbn.
    destruct (find _ _) as [r|] eqn:Hf.
    { apply find_by_id_Some in Hf as [Hin Hk]. by destruct (Habsent r Hin). }
    rewrite (filter_fresh Traspaso.id) by done.
    by destruct (gw _ _).
Qed.

Lemma delete_absent_id_decrements_count_witness :
  let s := TraspasosStore.set_totalRecords 1
             (TraspasosStore.set_traspasos
                [Traspaso.mk "t-1" "a" "A" "b" "B" "2025-01-31" 50 None "u"]
                TraspasosStore.initialState) in
  let s' := fst (call (rejecting (new_Error "404")) 1 2
                   (TraspasosOps.deleteTraspaso "t-9") s) in
  TraspasosStore.traspasos s' = TraspasosStore.traspasos s
  ∧ TraspasosStore.totalRecords s' = 0%Z.
Proof.
  intros s.
  refine (proj2 delete_absent_id_decrements_count
            (rejecting (new_Error "404")) 1%Z 2%Z "t-9" s _).
  intros x Hx. cbn in Hx. apply list_elem_of_singleton in Hx as ->.
  discriminate.
Defined.

(** X11. When the Gateway rejects [deleteCliente] for a record that is the
    only one with its identifier, the collection afterwards holds the same
    records as before the call, the total count is the one before the call,
    and, the collation order being total, the whole collection is sorted by
    name, whatever its order was before. *)
Theorem deleteCliente_rollback_sorted (lc : LocaleCompare) e t0 t1 s r :
  (∀ a b : string, (localeCompare a b ≤ 0)%Z ∨ (localeCompare b a ≤ 0)%Z) →
  NoDup (Cliente.id <$> ClienteStore.clientes s) →
  r ∈ ClienteStore.clientes s →
  let s' := fst (call (rejecting e) t0 t1
                   (ClienteStore.deleteCliente (Cliente.id r)) s) in
  ClienteStore.clientes s' ≡ₚ ClienteStore.clientes s
  ∧ Sorted (nombre_le Cliente.nombre) (ClienteStore.clientes s')
  ∧ ClienteStore.totalRecords s' = ClienteStore.totalRecords s
  ∧ ClienteStore.error s'
    = Some (or_str (detail e) "Error al eliminar cliente").
Proof.
  intros Htotal Hnd Hin.
  pose proof (find_by_id_elem Cliente.id _ r Hnd Hin) as Hf.
  assert (Total (nombre_le (H:=lc) Cliente.nombre)).
  { intros a b. apply Htotal. }
  unfold call, ClienteStore.deleteCliente. cbn. rewrite Hf. cbn.
  repeat split.
  - unfold sort_by_nombre. rewrite merge_sort_Permutation.
    by apply (filter_out_Permutation Cliente.id).
  - by apply Sorted_merge_sort.
Qed.

Lemma deleteCliente_rollback_sorted_witness :
  let lc : LocaleCompare := λ a b,
    match String.compare a b with Lt => (-1)%Z | Eq => 0%Z | Gt => 1%Z end in
  let zoe := Cliente.mk "1" "Zoe" 0 "" in
  let ana := Cliente.mk "2" "Ana" 0 "" in
  let s := ClienteStore.set_totalRecords 2
             (ClienteStore.set_clientes [zoe; ana]
                ClienteStore.initialState) in
  let s' := fst (call (rejecting (mkJsError None None None)) 1 2
                   (ClienteStore.deleteCliente "1") s) in
  ClienteStore.clientes s' ≡ₚ [zoe; ana]
  ∧ Sorted (nombre_le Cliente.nombre) (ClienteStore.clientes s')
  ∧ ClienteStore.totalRecords s' = 2%Z
  ∧ ClienteStore.error s' = Some "Error al eliminar cliente".
Proof.
  intros lc zoe ana s.
  refine (deleteCliente_rollback_sorted lc (mkJsError None None None)
            1 2 s zoe _ _ _).
  - intros a b. unfold localeCompare, lc.
    rewrite (String.compare_antisym b a).
    destruct (String.compare a b); cbn; lia.
  - cbn. apply NoDup_cons. split; [|apply NoDup_singleton].
    intros Hin. apply list_elem_of_singleton in Hin. discriminate Hin.
  - cbn. left.
Defined.

(** X12. When the Gateway rejects [deleteTraspaso], the first record with
    the identifier is put back at the end of the collection (not at its old
    position), the total count is the one before the call and the message
    of the error (or the fallback) is recorded; when the Gateway confirms,
    the record stays out, the count stays one lower and the error slot is
    emptied. *)
Theorem deleteTraspaso_outcomes
    (gw : Gateway TraspasosOps.Service) t0 t1 id s r :
  find (λ x, bool_decide (Traspaso.id x = id)) (TraspasosStore.traspasos s)
  = Some r →
  let '(s', o) := call gw t0 t1 (TraspasosOps.deleteTraspaso id) s in
  o = Finished (Returned tt)
  ∧ match gw _ (TraspasosOps.svc_delete id) with
    | Rejected e =>
        TraspasosStore.traspasos s'
        = filter (λ x, Traspaso.id x ≠ id) (TraspasosStore.traspasos s) ++ [r]
        ∧ TraspasosStore.totalRecords s' = TraspasosStore.totalRecords s
        ∧ TraspasosStore.error s'
          = Some (or_str (message e) "Error al eliminar traspaso")
    | Fulfilled _ =>
        TraspasosStore.traspasos s'
        = filter (λ x, Traspaso.id x ≠ id) (TraspasosStore.traspasos s)
        ∧ TraspasosStore.totalRecords s'
          = (TraspasosStore.totalRecords s - 1)%Z
        ∧ TraspasosStore.error s' = None
    end.
Proof.
  intros Hf. unfold call, TraspasosOps.deleteTraspaso. cbn. rewrite Hf. cbn.
  by destruct (gw _ _).
Qed.

Lemma deleteTraspaso_outcomes_witness :
  let r1 := Traspaso.mk "t-1" "a" "A" "b" "B" "2025-01-31" 50 None "u" in
  let r2 := Traspaso.mk "t-2" "a" "A" "c" "C" "2025-02-01" 20 None "u" in
  let s := TraspasosStore.set_totalRecords 2
             (TraspasosStore.set_traspasos [r1; r2]
                TraspasosStore.initialState) in
  let '(s', o) := call (rejecting (new_Error "boom")) 1 2
                    (TraspasosOps.deleteTraspaso "t-1") s in
  o = Finished (Returned tt)
  ∧ TraspasosStore.traspasos s' = [r2; r1]
  ∧ TraspasosStore.totalRecords s' = 2%Z
  ∧ TraspasosStore.error s' = Some "boom".
Proof.
  intros r1 r2 s.
  exact (deleteTraspaso_outcomes (rejecting (new_Error "boom")) 1 2 "t-1" s r1
           eq_refl).
Defined.

(** * Mutations on a [switchMap] pipeline *)

Lemma deleteCliente_requests (lc : LocaleCompare) t id s :
  ∃ R (c : ClienteStore.Service R) k,
    (run t (ClienteStore.deleteCliente id) s).2 = Pending c k.
Proof. by eexists _, _, _. Qed.

(** X13. [deleteCliente] runs on a [switchMap]: when a second delete is
    emitted while the first is in flight, the response to the first is
    dropped. Both records are out and the total count is two lower, and no
    answer to the first request, a rejection included, brings its record
    or its count back. *)
Theorem deleteCliente_superseded_rollback_lost
    (lc : LocaleCompare) (w0 : Rx.World) a b ta tb late :
  Forall (Rx.responds_not_to (S (Rx.issued w0))) late →
  let w := Rx.steps ClienteStore.deleteCliente
             ([(ta, Rx.Emit a); (tb, Rx.Emit b)] ++ late) w0 in
  ClienteStore.clientes (Rx.store w)
  = filter (λ c, Cliente.id c ≠ b)
      (filter (λ c, Cliente.id c ≠ a) (ClienteStore.clientes (Rx.store w0)))
  ∧ ClienteStore.totalRecords (Rx.store w)
    = (ClienteStore.totalRecords (Rx.store w0) - 2)%Z.
Proof.
  intros Hlate w.
  destruct (superseded ClienteStore.deleteCliente (deleteCliente_requests lc)
              ta tb 0%Z a b (rejecting (new_Error "")) late [] w0 Hlate)
    as [Hdrop _]; [constructor|].
  subst w. rewrite Hdrop. cbn. split; [done|lia].
Qed.

Lemma deleteCliente_superseded_rollback_lost_witness :
  let lc : LocaleCompare := λ a b,
    match String.compare a b with Lt => (-1)%Z | Eq => 0%Z | Gt => 1%Z end in
  let ana := Cliente.mk "1" "Ana" 0 "" in
  let eva := Cliente.mk "2" "Eva" 0 "" in
  let s := ClienteStore.set_totalRecords 2
             (ClienteStore.set_clientes [ana; eva]
                ClienteStore.initialState) in
  let w := Rx.steps ClienteStore.deleteCliente
             [(1%Z, Rx.Emit "1"); (2%Z, Rx.Emit "2");
              (3%Z, Rx.Respond 0 (rejecting (new_Error "409")))]
             (Rx.start s) in
  ClienteStore.clientes (Rx.store w) = []
  ∧ ClienteStore.totalRecords (Rx.store w) = 0%Z.
Proof.
  intros lc ana eva s.
  refine (deleteCliente_superseded_rollback_lost lc (Rx.start s) "1" "2"
            1 2 [(3%Z, Rx.Respond 0 (rejecting (new_Error "409")))] _).
  repeat constructor. cbn. discriminate.
Defined.

Lemma createIngreso_requests {IC IP : Type} t (x : IC) s :
  ∃ R (c : IngresosStore.Service IC IP R) k,
    (run t (IngresosStore.createIngreso x) s).2 = Pending c k.
Proof. by eexists _, _, _. Qed.

(** X14. [createIngreso] runs on a [switchMap]: when a second create is
    emitted while the first is in flight, only the income returned for the
    second one is appended to the collection, whatever the Gateway answers
    to the first request and whenever that answer arrives. *)
Theorem createIngreso_superseded_first_lost
    {IC IP : Type} (w0 : Rx.World) (a b : IC) ta tb t2
    (gw2 : Gateway (IngresosStore.Service IC IP)) newIngreso early late :
  Forall (Rx.responds_not_to (S (Rx.issued w0))) early →
  Forall Rx.is_response late →
  gw2 _ (IngresosStore.svc_create b) = Fulfilled newIngreso →
  let w := Rx.steps IngresosStore.createIngreso
             ([(ta, Rx.Emit a); (tb, Rx.Emit b)] ++ early
                ++ [(t2, Rx.Respond (S (Rx.issued w0)) gw2)] ++ late) w0 in
  IngresosStore.ingresos (Rx.store w)
  = IngresosStore.ingresos (Rx.store w0) ++ [newIngreso]
  ∧ IngresosStore.loading (Rx.store w) = false.
Proof.
  intros Hearly Hlate Hgw w.
  destruct (superseded IngresosStore.createIngreso createIngreso_requests
              ta tb t2 a b gw2 early late w0 Hearly Hlate) as [_ Hsame].
  subst w. rewrite Hsame. cbn. rewrite decide_True by done. cbn.
  by rewrite Hgw.
Qed.

Lemma createIngreso_superseded_first_lost_witness :
  let first := Ingreso.mk "i-1" 1200 "2025-01-31" None None in
  let second := Ingreso.mk "i-2" 300 "2025-02-01" None None in
  let w := Rx.steps (IngresosStore.createIngreso (IngresoPartial:=unit))
             [(1%Z, Rx.Emit "nomina"); (2%Z, Rx.Emit "extra");
              (3%Z, Rx.Respond 0 (ingreso_gateway first));
              (4%Z, Rx.Respond 1 (ingreso_gateway second))]
             (Rx.start IngresosStore.initialState) in
  IngresosStore.ingresos (Rx.store w) = [second]
  ∧ IngresosStore.loading (Rx.store w) = false.
Proof.
  intros first second.
  refine (createIngreso_superseded_first_lost
            (Rx.start IngresosStore.initialState) "nomina" "extra" 1 2 4
            (ingreso_gateway second) second
            [(3%Z, Rx.Respond 0 (ingreso_gateway first))] [] _ _ eq_refl).
  - repeat constructor. cbn. discriminate.
  - constructor.
Defined.

(** X15. IngresosStore never has to roll back: when the Gateway rejects
    [createIngreso], [updateIngreso] or [deleteIngreso], the store is the
    one before the call except for the in-flight flag (off) and the error
    slot (the [userMessage] of the error or the fallback), and nothing is
    thrown. *)
Theorem ingresos_rejected_only_records_error :
  (∀ (IC IP : Type) e t0 t1 (x : IC) s,
     call (rejecting e) t0 t1
       (IngresosStore.createIngreso (IngresoPartial:=IP) x) s
     = (IngresosStore.set_loading false
          (IngresosStore.set_error
             (Some (or_str (userMessage e) "Error al crear ingreso")) s),
        Finished (Returned tt)))
  ∧ (∀ (IC IP : Type) e t0 t1 id (p : IP) s,
     call (rejecting e) t0 t1
       (IngresosStore.updateIngreso (IngresoCreate:=IC) id p) s
     = (IngresosStore.set_loading false
          (IngresosStore.set_error
             (Some (or_str (userMessage e) "Error al actualizar ingreso")) s),
        Finished (Returned tt)))
  ∧ (∀ (IC IP : Type) e t0 t1 id s,
     call (rejecting e) t0 t1
       (IngresosStore.deleteIngreso (IngresoCreate:=IC) (IngresoPartial:=IP)
          id) s
     = (IngresosStore.set_loading false
          (IngresosStore.set_error
             (Some (or_str (userMessage e) "Error al eliminar ingreso")) s),
        Finished (Returned tt))).
Proof. by repeat apply conj; intros; destruct s. Qed.

(** * Loads *)

(** X16. A paginated or full load that the Gateway rejects overwrites
    nothing: the store is the one before the call except for the in-flight
    flag (off) and the error slot (the [userMessage] of the error or the
    fallback), and nothing is thrown. In ClienteStore, TraspasosStore and
    for the three loads of GastosStore. *)
Theorem load_rejected_only_records_error :
  (∀ e t0 t1 q s,
     call (rejecting e) t0 t1 (ClienteQueries.loadClienteesPaginated q) s
     = (ClienteStore.set_loading false
          (ClienteStore.set_error
             (Some (or_str (userMessage e) "Error al cargar clientes")) s),
        Finished (Returned tt)))
  ∧ (∀ e t0 t1 q s,
     call (rejecting e) t0 t1 (TraspasosOps.loadTraspasosPaginated q) s
     = (TraspasosStore.set_loading false
          (TraspasosStore.set_error
             (Some (or_str (userMessage e) "Error al cargar traspasos")) s),
        Finished (Returned tt)))
  ∧ (∀ e t0 t1 q ts s,
     call (rejecting e) t0 t1 (GastosStore.loadGastosPaginated q ts) s
     = (GastosStore.set_loading false
          (GastosStore.set_error
             (Some (or_str (userMessage e) "Error al cargar gastos")) s),
        Finished (Returned tt)))
  ∧ (∀ e t0 t1 s,
     call (rejecting e) t0 t1 GastosOps.loadGastos s
     = (GastosStore.set_loading false
          (GastosStore.set_error
             (Some (or_str (userMessage e) "Error al cargar gastos")) s),
        Finished (Returned tt)))
  ∧ (∀ e t0 t1 desde hasta s,
     call (rejecting e) t0 t1 (GastosOps.loadGastosPorPeriodo desde hasta) s
     = (GastosStore.set_loading false
          (GastosStore.set_error
             (Some (or_str (userMessage e) "Error al cargar gastos")) s),
        Finished (Returned tt))).
Proof. by repeat apply conj; intros; destruct s. Qed.

(** X17. A load by period that succeeds replaces the collection by the
    list of the Gateway and records the period in the filters; the other
    filters, the total count, the cache and the time of the last update
    are the ones before the call, so the total count may no longer match
    what the collection shows. *)
Theorem loadGastosPorPeriodo_confirmed
    (gw : Gateway GastosOps.Service) t0 t1 desde hasta s gastos :
  gw _ (GastosOps.svc_getGastosPorPeriodo desde hasta) = Fulfilled gastos →
  let s' := fst (call gw t0 t1 (GastosOps.loadGastosPorPeriodo desde hasta) s) in
  GastosStore.gastos s' = gastos
  ∧ GastosStore.filters s'
    = GastosStore.mkFilters desde hasta
        (GastosStore.categoria (GastosStore.filters s))
        (GastosStore.f_searchTerm (GastosStore.filters s))
        (GastosStore.f_sortColumn (GastosStore.filters s))
        (GastosStore.f_sortOrder (GastosStore.filters s))
  ∧ GastosStore.totalRecords s' = GastosStore.totalRecords s
  ∧ GastosStore.searchCache s' = GastosStore.searchCache s
  ∧ GastosStore.lastUpdated s' = GastosStore.lastUpdated s
  ∧ GastosStore.loading s' = false
  ∧ GastosStore.error s' = None.
Proof.
  intros Hgw. unfold call, GastosOps.loadGastosPorPeriodo. cbn.
  by rewrite Hgw.
Qed.

Lemma loadGastosPorPeriodo_confirmed_witness :
  let g := Gasto.mk "g-1" "" "" "" "" "" "" "" "" "" "" "" "" 10 "2025-01-15"
             None "" in
  let gw : Gateway GastosOps.Service := λ R c,
    match c in GastosOps.Service R return Settled R with
    | GastosOps.svc_getAllGastos => Fulfilled []
    | GastosOps.svc_getGastosPorPeriodo _ _ => Fulfilled [g]
    | GastosOps.svc_update _ _ => Fulfilled tt
    end in
  let s := GastosStore.set_totalRecords 40 GastosStore.initialState in
  let s' := fst (call gw 1 2
                   (GastosOps.loadGastosPorPeriodo "2025-01-01" "2025-01-31")
                   s) in
  GastosStore.gastos s' = [g]
  ∧ GastosStore.filters s'
    = GastosStore.mkFilters "2025-01-01" "2025-01-31" "" "" "" ""
  ∧ GastosStore.totalRecords s' = 40%Z
  ∧ GastosStore.searchCache s' = ∅
  ∧ GastosStore.lastUpdated s' = None
  ∧ GastosStore.loading s' = false
  ∧ GastosStore.error s' = None.
Proof.
  intros g gw s.
  exact (loadGastosPorPeriodo_confirmed gw 1 2 "2025-01-01" "2025-01-31" s [g]
           eq_refl).
Defined.

(** * Flags and slots of CategoriaStore *)

(** X18. Every method of CategoriaStore that raises the in-flight flag
    lowers it again when the response of the Gateway has been handled,
    whatever the response: [create], [update], [getRecent] and the
    paginated load finish with the flag off, and so does a [search] that
    missed the cache. *)
Theorem loading_lowered_on_completion
    (gw : Gateway CategoriaStore.Service) t0 t1 s :
  (∀ nombre, ∃ o,
     snd (call gw t0 t1 (CategoriaStore.create nombre) s) = Finished o
     ∧ CategoriaStore.loading
         (fst (call gw t0 t1 (CategoriaStore.create nombre) s)) = false)
  ∧ (∀ id p, ∃ o,
     snd (call gw t0 t1 (CategoriaStore.update id p) s) = Finished o
     ∧ CategoriaStore.loading
         (fst (call gw t0 t1 (CategoriaStore.update id p) s)) = false)
  ∧ (∀ limit, ∃ o,
     snd (call gw t0 t1 (CategoriaStore.getRecent limit) s) = Finished o
     ∧ CategoriaStore.loading
         (fst (call gw t0 t1 (CategoriaStore.getRecent limit) s)) = false)
  ∧ (∀ q, ∃ o,
     snd (call gw t0 t1 (CategoriaStore.loadCategoriasPaginated q) s)
     = Finished o
     ∧ CategoriaStore.loading
         (fst (call gw t0 t1 (CategoriaStore.loadCategoriasPaginated q) s))
       = false)
  ∧ (∀ query limit,
     CategoriaStore.searchCache s !! (query +:+ "_" +:+ pretty limit) = None →
     ∃ o,
       snd (call gw t0 t1 (CategoriaStore.search query limit) s) = Finished o
       ∧ CategoriaStore.loading
           (fst (call gw t0 t1 (CategoriaStore.search query limit) s))
         = false).
Proof.
  repeat apply conj.
  - intros nombre. unfold call, CategoriaStore.create. cbn.
    destruct (gw _ _) as [response|e]; cbn; [|by eexists].
    destruct (isSuccess response); cbn; [|by eexists].
    destruct (bool_decide _); cbn; by eexists.
  - intros id p. unfold call, CategoriaStore.update. cbn.
    destruct (find _ _) as [r|]; cbn;
      (destruct (gw _ _) as [response|e]; cbn; [|by eexists]);
      destruct (isSuccess response); cbn; by eexists.
  - intros limit. unfold call, CategoriaStore.getRecent. cbn.
    destruct (gw _ _) as [response|e]; cbn; [|by eexists].
    destruct (isSuccess response); cbn; [|by eexists].
    destruct (value response); cbn; by eexists.
  - intros q. unfold call, CategoriaStore.loadCategoriasPaginated. cbn.
    destruct (gw _ _) as [response|e]; cbn; by eexists.
  - intros query limit Hmiss. unfold call, CategoriaStore.search. cbn.
    rewrite Hmiss. cbn.
    destruct (gw _ _) as [response|e]; cbn; [|by eexists].
    destruct (isSuccess response); cbn; [|by eexists].
    destruct (value response); cbn; by eexists.
Qed.

Lemma loading_lowered_on_completion_witness :
  ∃ o,
    snd (call (rejecting (new_Error "boom")) 1 2
           (CategoriaStore.search "foo" 10) CategoriaStore.initialState)
    = Finished o
    ∧ CategoriaStore.loading
        (fst (call (rejecting (new_Error "boom")) 1 2
                (CategoriaStore.search "foo" 10) CategoriaStore.initialState))
      = false.
Proof.
  destruct (loading_lowered_on_completion (rejecting (new_Error "boom"))
              1 2 CategoriaStore.initialState) as (_ & _ & _ & _ & Hsearch).
  exact (Hsearch "foo" 10%Z eq_refl).
Defined.

(** X19. [getRecent] of CategoriaStore reads only: whatever the Gateway
    answers, the store afterwards is the one before the call with the
    in-flight flag off (collection, count, cache, error slot and time of
    the last update untouched); a successful answer is returned as a list,
    an object without [items] giving the empty list. *)
Theorem getRecent_reads_only
    (gw : Gateway CategoriaStore.Service) t0 t1 limit s :
  fst (call gw t0 t1 (CategoriaStore.getRecent limit) s)
  = CategoriaStore.set_loading false s
  ∧ ∀ v msg,
      gw _ (CategoriaStore.svc_getRecent limit)
      = Fulfilled (mkResult true (Some v) msg) →
      snd (call gw t0 t1 (CategoriaStore.getRecent limit) s)
      = Finished (Returned (recent_items v))
      ∧ (v = RecentObject None → recent_items v = []).
Proof.
  unfold call, CategoriaStore.getRecent. cbn. split.
  - destruct (gw _ _) as [response|e]; cbn; [|by destruct s].
    destruct (isSuccess response); cbn; [|by destruct s].
    destruct (value response); cbn; by destruct s.
  - intros v msg ->. cbn. split; [done|]. by intros ->.
Qed.

Lemma getRecent_reads_only_witness :
  let gw : Gateway CategoriaStore.Service := λ R c,
    match c in CategoriaStore.Service R return Settled R with
    | CategoriaStore.svc_getRecent _ =>
        Fulfilled (mkResult true (Some (RecentObject None)) None)
    | _ => Rejected (new_Error "unexpected request")
    end in
  call gw 1 2 (CategoriaStore.getRecent 5) CategoriaStore.initialState
  = (CategoriaStore.initialState, Finished (Returned [])).
Proof.
  intros gw.
  destruct (getRecent_reads_only gw 1 2 5 CategoriaStore.initialState)
    as [Hstate Hvalue].
  destruct (Hvalue (RecentObject None) None eq_refl) as [Hout _].
  rewrite (surjective_pairing (call gw 1 2 _ _)). by rewrite Hstate, Hout.
Defined.

(** X20. [isSyncing] tells a reload over data already shown: when the
    paginated load dispatches its request it is on exactly if the
    collection is not empty, and when the response has been handled it is
    off. *)
Theorem isSyncing_during_reload
    (gw : Gateway CategoriaStore.Service) t0 t1 q s :
  CategoriaViews.isSyncing
    (fst (run t0 (CategoriaStore.loadCategoriasPaginated q) s))
  = bool_decide (CategoriaStore.categorias s ≠ [])
  ∧ CategoriaViews.isSyncing
      (fst (call gw t0 t1 (CategoriaStore.loadCategoriasPaginated q) s))
    = false.
Proof.
  split.
  - unfold CategoriaViews.isSyncing, CategoriaViews.hasData. cbn.
    destruct (CategoriaStore.categorias s) as [|c l]; [done|].
    symmetry. by apply bool_decide_eq_true_2.
  - unfold call, CategoriaStore.loadCategoriasPaginated. cbn.
    by destruct (gw _ _).
Qed.

(** * The error slot of ClienteStore *)

Lemma or_str_nonempty x fallback : fallback ≠ "" → or_str x fallback ≠ "".
Proof. intros Hne. destruct x as [m|]; cbn; [by case_decide|done]. Qed.

(** X21. When [search] (on a cache miss) or [getRecent] of ClienteStore
    throws, the error slot holds a message that is not empty: the message
    of the error or of the envelope, and the fallback text when that one
    is missing or empty. *)
Theorem cliente_read_failure_has_message
    (gw : Gateway ClienteQueries.Service) t0 t1 s :
  (∀ query limit s' err,
     ClienteStore.searchCache s !! (query +:+ "_" +:+ pretty limit) = None →
     call gw t0 t1 (ClienteQueries.search query limit) s
     = (s', Finished (Thrown err)) →
     ∃ m, ClienteStore.error s' = Some m ∧ m ≠ ""
          ∧ m = or_str (message err) "Error al buscar clientes")
  ∧ (∀ limit s' err,
     call gw t0 t1 (ClienteQueries.getRecent limit) s
     = (s', Finished (Thrown err)) →
     ∃ m, ClienteStore.error s' = Some m ∧ m ≠ ""
          ∧ m = or_str (message err) "Error al cargar clientes recientes").
Proof.
  split.
  - intros query limit s' err Hmiss.
    unfold call, ClienteQueries.search. cbn. rewrite Hmiss. cbn.
    destruct (gw _ _) as [response|e]; cbn.
    + destruct (isSuccess response), (value response); cbn;
        intros [= <- <-]; cbn; eexists; (split; [done|]);
        (split; [by case_decide|done]).
    + intros [= <- <-]. cbn. eexists. split; [done|].
      split; [by apply or_str_nonempty|done].
  - intros limit s' err.
    unfold call, ClienteQueries.getRecent. cbn.
    destruct (gw _ _) as [response|e]; cbn.
    + destruct (isSuccess response), (value response); cbn;
        intros [= <- <-]; cbn; eexists; (split; [done|]);
        (split; [by case_decide|done]).
    + intros [= <- <-]. cbn. eexists. split; [done|].
      split; [by apply or_str_nonempty|done].
Qed.

Lemma cliente_read_failure_has_message_witness :
  let e := mkJsError None None None in
  ∃ m,
    ClienteStore.error
      (fst (call (rejecting e) 1 2 (ClienteQueries.search "an" 10)
              ClienteStore.initialState)) = Some m
    ∧ m ≠ ""
    ∧ m = or_str (message e) "Error al buscar clientes".
Proof.
  intros e.
  exact (proj1 (cliente_read_failure_has_message (rejecting e) 1 2
                  ClienteStore.initialState)
           "an" 10%Z _ e eq_refl eq_refl).
Defined.
